(** * Notch filter plugin: the per-stream filter banks of [BandstopFilter.cpp]

    A shallow embedding of [Source/BandstopFilter.cpp] and the properties of
    its filter-bank life cycle, of the cutoff validation protocol and of the
    block processing loop.

    Numbers are what the C++ has: [double] is Rocq's primitive binary64
    [float]; a C++ [float] (the sample rate, the samples) is carried as the
    binary64 value it widens to, which is exact.  [int] is [Z], the 16-bit
    stream identifier is [N] (no arithmetic is ever done on it).

    The member functions are functions on the state of their object.  They
    return an [option]: [None] is a dereferenced null pointer or an access
    outside an array, which the C++ does not survive.  The DSP library and
    the host are interfaces ([FilterDesign], [Host]); what is proved holds
    for every implementation of them. *)

From Stdlib Require Import ZArith Floats Ascii String.
From stdpp Require Import base option list gmap strings.

Local Open Scope Z_scope.

(** ** Facts about binary64 the development needs *)

Module Binary64.

(** [x >= y], [x <= y] and [x < y] of C++ on the values of two parameters,
    through the primitive comparisons of binary64 (the host hands the values
    over as [juce::var]s, which compare as the numbers they hold). *)
Definition geb (x y : float) : bool := PrimFloat.leb y x.
Definition leb (x y : float) : bool := PrimFloat.leb x y.
Definition ltb (x y : float) : bool := PrimFloat.ltb x y.

Lemma SFadd_comm prec emax (x y : spec_float) :
  SFadd prec emax x y = SFadd prec emax y x.
Proof.
  destruct x as [sx|sx| |sx mx ex], y as [sy|sy| |sy my ey]; simpl;
    try reflexivity; try (destruct sx, sy; reflexivity).
  rewrite (Z.min_comm ey ex).
  f_equal. apply Z.add_comm.
Qed.

Lemma add_comm (x y : float) : (x + y)%float = (y + x)%float.
Proof.
  apply Prim2SF_inj. rewrite !add_spec. apply SFadd_comm.
Qed.

Definition opp_cmp (c : option comparison) : option comparison :=
  match c with Some c => Some (CompOpp c) | None => None end.

Lemma compare_cont_Eq_antisym (p q : positive) :
  PosDef.Pos.compare_cont Eq q p = CompOpp (PosDef.Pos.compare_cont Eq p q).
Proof. symmetry. exact (Pos.compare_cont_antisym p q Eq). Qed.

Lemma SFcompare_antisym (x y : spec_float) :
  SFcompare y x = opp_cmp (SFcompare x y).
Proof.
  destruct x as [sx|sx| |sx mx ex], y as [sy|sy| |sy my ey]; simpl;
    try reflexivity;
    try (destruct sx; reflexivity); try (destruct sy; reflexivity);
    try (destruct sx, sy; reflexivity).
  destruct sx, sy; simpl; try reflexivity;
    rewrite (Z.compare_antisym ex ey);
    destruct (ex ?= ey)%Z eqn:E; simpl; try reflexivity;
    rewrite (compare_cont_Eq_antisym mx my); reflexivity.
Qed.

(** A NaN is the one value that is not equal to itself. *)
Definition is_nan (x : float) : bool := negb (PrimFloat.eqb x x).

Lemma not_nan_compare (x y : float) :
  is_nan x = false -> is_nan y = false ->
  SFcompare (Prim2SF x) (Prim2SF y) <> None.
Proof.
  unfold is_nan. rewrite !FloatAxioms.eqb_spec. unfold SFeqb.
  destruct (Prim2SF x) as [sx|sx| |sx mx ex], (Prim2SF y) as [sy|sy| |sy my ey];
    simpl; try discriminate; intros; discriminate.
Qed.

(** Among numbers, "not [x >= y]" is [x < y]. *)
Lemma not_geb_ltb (x y : float) :
  is_nan x = false -> is_nan y = false ->
  geb x y = false -> ltb x y = true.
Proof.
  intros Hx Hy. unfold geb, ltb. rewrite FloatAxioms.leb_spec, FloatAxioms.ltb_spec.
  unfold SFleb, SFltb. rewrite (SFcompare_antisym (Prim2SF x) (Prim2SF y)).
  pose proof (not_nan_compare x y Hx Hy) as Hc.
  destruct (SFcompare (Prim2SF x) (Prim2SF y)) as [[| |]|]; simpl;
    congruence.
Qed.

(** Only numbers are [<] one another. *)
Lemma ltb_not_nan (x y : float) :
  ltb x y = true -> is_nan x = false /\ is_nan y = false.
Proof.
  unfold ltb, is_nan. rewrite FloatAxioms.ltb_spec, !FloatAxioms.eqb_spec.
  unfold SFltb, SFeqb.
  destruct (Prim2SF x) as [sx|sx| |sx mx ex], (Prim2SF y) as [sy|sy| |sy my ey];
    simpl; try discriminate; intros _;
    rewrite ?Z.compare_refl, ?Pos.compare_cont_refl;
    (split; [try (by destruct sx)|try (by destruct sy)]).
Qed.

(** Equal numbers are [<=] one another, both ways. *)
Lemma eqb_leb (x y : float) :
  PrimFloat.eqb x y = true -> leb x y = true /\ geb x y = true.
Proof.
  unfold leb, geb.
  rewrite FloatAxioms.eqb_spec, !FloatAxioms.leb_spec.
  unfold SFeqb, SFleb. rewrite (SFcompare_antisym (Prim2SF x) (Prim2SF y)).
  destruct (SFcompare (Prim2SF x) (Prim2SF y)) as [[| |]|]; simpl;
    try discriminate. done.
Qed.

End Binary64.

(** ** The filter design of the DSP library, as the plugin sees it *)

(** [Dsp::Params], restricted to the four entries [setFilterParameters]
    writes: [params[0]] to [params[3]]. *)
Record Params := mkParams {
  p_sampleRate : float;
  p_order : float;
  p_centerFrequency : float;
  p_bandwidth : float
}.

(** [for (int n = start; n < start + count; ++n) body(n)] over a state that
    the body may fail on (a dereferenced null pointer). *)
Fixpoint for_range {S : Type} (start : Z) (count : nat)
    (body : Z -> S -> option S) (s : S) : option S :=
  match count with
  | O => Some s
  | Datatypes.S count' =>
      match body start s with
      | Some s' => for_range (start + 1) count' body s'
      | None => None
      end
  end.

(** [juce::OwnedArray::operator[]]: the element, or a null pointer when the
    index is out of range. *)
Definition at_index {A : Type} (l : list A) (i : Z) : option A :=
  if i <? 0 then None else l !! Z.to_nat i.

(** [AudioBuffer<float>]: one list of samples per buffer channel. *)
Abbreviation AudioBuffer := (list (list float)).

(** What one [Dsp::SmoothedFilterDesign<BandStop<4>, 1, DirectFormII>] holds
    besides its parameters (coefficients, delay line, the running
    transition), the parameters and state of a newly constructed one, and the
    two entry points of the library, [setParams] and [process]; the library
    is not part of the plugin. *)
Class FilterDesign := {
  FilterState : Type;
  initialParams : Params;
  initialState : FilterState;
  (** new parameters, old parameters, old state *)
  lib_setParams : Params -> Params -> FilterState -> FilterState;
  (** parameters, state, the samples of the block; the new state and the
      filtered samples *)
  lib_process : Params -> FilterState -> list float -> FilterState * list float
}.

Section Plugin.

Context {design : FilterDesign}.

Record Filter := mkFilter {
  f_params : Params;
  f_state : FilterState
}.

(** [new Dsp::SmoothedFilterDesign<...>(1)] *)
Definition newFilter : Filter := mkFilter initialParams initialState.

(** [filter->setParams(params)] *)
Definition setParams (p : Params) (f : Filter) : Filter :=
  mkFilter p (lib_setParams p (f_params f) (f_state f)).

(** [filter->process(numSamples, &ptr)] on the samples [ptr[0..numSamples)] *)
Definition processFilter (f : Filter) (samples : list float)
    : Filter * list float :=
  let '(st, out) := lib_process (f_params f) (f_state f) samples in
  (mkFilter (f_params f) st, out).

(** [BandstopFilterSettings]: the filter bank of one stream. *)
Record BandstopFilterSettings := mkSettings {
  sampleRate : float;
  filters : list Filter
}.

(** The [Dsp::Params] that [setFilterParameters] fills in. *)
Definition filterParams (sampleRate lowCut highCut : float) : Params :=
  {| p_sampleRate := sampleRate;
     p_order := 4;
     p_centerFrequency := (highCut + lowCut) / 2;
     p_bandwidth := highCut - lowCut |}%float.

Definition setFilterParameters (lowCut highCut : float) (channel : Z)
    (b : BandstopFilterSettings) : option BandstopFilterSettings :=
  let params := filterParams (sampleRate b) lowCut highCut in
  match at_index (filters b) channel with
  | Some f =>
      Some (mkSettings (sampleRate b)
              (<[Z.to_nat channel := setParams params f]> (filters b)))
  | None => None
  end.

(** The loop bound [filters.size()] is not changed by the body. *)
Definition updateFilters (lowCut highCut : float)
    (b : BandstopFilterSettings) : option BandstopFilterSettings :=
  for_range 0 (length (filters b)) (setFilterParameters lowCut highCut) b.

Definition createFilters (numChannels : Z) (sampleRate_ lowCut highCut : float)
    (b : BandstopFilterSettings) : option BandstopFilterSettings :=
  let b1 := mkSettings sampleRate_ (filters b) in
  let b2 := mkSettings (sampleRate b1) [] in
  match for_range 0 (Z.to_nat numChannels)
          (fun _ b => Some (mkSettings (sampleRate b) (filters b ++ [newFilter])))
          b2 with
  | Some b3 => updateFilters lowCut highCut b3
  | None => None
  end.

(** The configuration of every instance of a bank. *)
Definition configurations (b : BandstopFilterSettings) : list Params :=
  f_params <$> filters b.

(** *** The processor: streams, their parameters, their banks *)

(** A float parameter of the host: its value and the value it had before
    the last edit, which [restorePreviousValue] brings back. *)
Record FloatParameter := mkFloatParameter {
  currentValue : float;
  previousValue : float
}.

Definition restorePreviousValue (p : FloatParameter) : FloatParameter :=
  mkFloatParameter (previousValue p) (previousValue p).

(** A [DataStream] of the host with the stream-scoped parameters the
    plugin reads: ["low_cut"], ["high_cut"], ["enable_stream"] and the
    channel mask ["Channels"]. *)
Record DataStream := mkDataStream {
  streamId : N;
  channelCount : Z;
  streamSampleRate : float;
  low_cut : FloatParameter;
  high_cut : FloatParameter;
  enable_stream : bool;
  Channels : list Z
}.

(** The [Parameter*] handed to [parameterValueChanged]: which parameter of
    which stream was edited. *)
Record Param := mkParam {
  paramName : string;
  paramStreamId : N
}.

(** The calls made on the banks, in order: a ghost record that the C++
    does not keep. *)
Inductive BankCall :=
| CreateFilters (stream : N) (numChannels : Z)
    (sampleRate_ lowCut highCut : float)
| UpdateFilters (stream : N) (lowCut highCut : float).

(** [BandstopFilter]: the streams of the processor, [settings] (one bank
    per stream identifier) and the ghost record of calls. *)
Record BandstopFilter := mkBandstopFilter {
  dataStreams : list DataStream;
  settings : gmap N BandstopFilterSettings;
  bankCalls : list BankCall
}.

(** What the host supplies: the buffer channel of a channel of a stream,
    the number of samples of a stream in the current block, and the bank
    that [settings.update] constructs for a stream it has not seen. *)
Class Host := {
  getGlobalChannelIndex : N -> Z -> Z;
  getNumSamplesInBlock : N -> nat;
  defaultSettings : BandstopFilterSettings
}.

Context {host : Host}.

(** [juce::String::equalsIgnoreCase], on ASCII. *)
Definition toLowerCase (c : ascii) : ascii :=
  let n := nat_of_ascii c in
  if ((65 <=? n) && (n <=? 90))%nat then ascii_of_nat (n + 32) else c.

Fixpoint toLowerCaseString (s : string) : string :=
  match s with
  | EmptyString => EmptyString
  | String c s' => String (toLowerCase c) (toLowerCaseString s')
  end.

Definition equalsIgnoreCase (s t : string) : bool :=
  String.eqb (toLowerCaseString s) (toLowerCaseString t).

(** [getDataStream(id)]: the stream with that identifier, if any. *)
Fixpoint findStream (id : N) (streams : list DataStream) : option DataStream :=
  match streams with
  | [] => None
  | st :: rest =>
      if N.eqb (streamId st) id then Some st else findStream id rest
  end.

Definition getDataStream (s : BandstopFilter) (id : N) : option DataStream :=
  findStream id (dataStreams s).

(** A change made through the pointer that [getDataStream(id)] returns. *)
Fixpoint updateStream (id : N) (f : DataStream -> DataStream)
    (streams : list DataStream) : list DataStream :=
  match streams with
  | [] => []
  | st :: rest =>
      if N.eqb (streamId st) id then f st :: rest
      else st :: updateStream id f rest
  end.

Definition restore_low_cut (st : DataStream) : DataStream :=
  mkDataStream (streamId st) (channelCount st) (streamSampleRate st)
    (restorePreviousValue (low_cut st)) (high_cut st)
    (enable_stream st) (Channels st).

Definition restore_high_cut (st : DataStream) : DataStream :=
  mkDataStream (streamId st) (channelCount st) (streamSampleRate st)
    (low_cut st) (restorePreviousValue (high_cut st))
    (enable_stream st) (Channels st).

(** [settings[id]->updateFilters(lowCut, highCut)]; [settings[id]] of a
    stream without bank is a null pointer. *)
Definition retune (s : BandstopFilter) (id : N) (lowCut highCut : float)
    : option BandstopFilter :=
  match settings s !! id with
  | Some b =>
      match updateFilters lowCut highCut b with
      | Some b' =>
          Some (mkBandstopFilter (dataStreams s) (<[id := b']> (settings s))
                  (bankCalls s ++ [UpdateFilters id lowCut highCut]))
      | None => None
      end
  | None => None
  end.

Definition parameterValueChanged (s : BandstopFilter) (param : Param)
    : option BandstopFilter :=
  let currentStream := paramStreamId param in
  if equalsIgnoreCase (paramName param) "low_cut" then
    match getDataStream s currentStream with
    | Some st =>
        if Binary64.geb (currentValue (low_cut st)) (currentValue (high_cut st))
        then Some (mkBandstopFilter
                     (updateStream currentStream restore_low_cut (dataStreams s))
                     (settings s) (bankCalls s))
        else retune s currentStream
               (currentValue (low_cut st)) (currentValue (high_cut st))
    | None => None
    end
  else if equalsIgnoreCase (paramName param) "high_cut" then
    match getDataStream s currentStream with
    | Some st =>
        if Binary64.leb (currentValue (high_cut st)) (currentValue (low_cut st))
        then Some (mkBandstopFilter
                     (updateStream currentStream restore_high_cut (dataStreams s))
                     (settings s) (bankCalls s))
        else retune s currentStream
               (currentValue (low_cut st)) (currentValue (high_cut st))
    | None => None
    end
  else Some s.

(** [settings.update(getDataStreams())] of the host: a bank for every
    stream, the one it had or a new one; the banks of streams that are
    gone are dropped. *)
Definition settings_update (streams : list DataStream)
    (m : gmap N BandstopFilterSettings) : gmap N BandstopFilterSettings :=
  foldr (fun st acc =>
           <[streamId st := default defaultSettings (m !! streamId st)]> acc)
        ∅ streams.

Definition rebuild (st : DataStream) (s : BandstopFilter)
    : option BandstopFilter :=
  match settings s !! streamId st with
  | Some b =>
      match createFilters (channelCount st) (streamSampleRate st)
              (currentValue (low_cut st)) (currentValue (high_cut st)) b with
      | Some b' =>
          Some (mkBandstopFilter (dataStreams s)
                  (<[streamId st := b']> (settings s))
                  (bankCalls s ++
                     [CreateFilters (streamId st) (channelCount st)
                        (streamSampleRate st)
                        (currentValue (low_cut st)) (currentValue (high_cut st))]))
      | None => None
      end
  | None => None
  end.

(** [for (auto x : xs) body(x)] over a state the body may fail on. *)
Fixpoint for_each {A S : Type} (xs : list A) (body : A -> S -> option S)
    (s : S) : option S :=
  match xs with
  | [] => Some s
  | x :: rest =>
      match body x s with
      | Some s' => for_each rest body s'
      | None => None
      end
  end.

Definition updateSettings (s : BandstopFilter) : option BandstopFilter :=
  let s1 := mkBandstopFilter (dataStreams s)
              (settings_update (dataStreams s) (settings s)) (bankCalls s) in
  for_each (dataStreams s1) rebuild s1.

(** *** Block processing *)

(** The body of the loop over the mask, on the bank that [streamSettings]
    points to: the write pointer of the buffer channel, then
    [streamSettings->filters[localChannelIndex]->process(numSamples, &ptr)]. *)
Definition process_channel (id : N) (numSamples : nat) (localChannelIndex : Z)
    (acc : BandstopFilterSettings * AudioBuffer)
    : option (BandstopFilterSettings * AudioBuffer) :=
  let '(bank, buffer) := acc in
  let globalChannelIndex := getGlobalChannelIndex id localChannelIndex in
  match at_index buffer globalChannelIndex with
  | Some samples =>
      match at_index (filters bank) localChannelIndex with
      | Some f =>
          if (numSamples <=? length samples)%nat then
            let '(f', out) := processFilter f (take numSamples samples) in
            Some (mkSettings (sampleRate bank)
                    (<[Z.to_nat localChannelIndex := f']> (filters bank)),
                  <[Z.to_nat globalChannelIndex := out ++ drop numSamples samples]>
                    buffer)
          else None
      | None => None
      end
  | None => None
  end.

(** The body of the loop over the streams. *)
Definition process_stream (st : DataStream)
    (acc : gmap N BandstopFilterSettings * AudioBuffer)
    : option (gmap N BandstopFilterSettings * AudioBuffer) :=
  let '(banks, buffer) := acc in
  if enable_stream st then
    match banks !! streamId st with
    | Some bank =>
        match for_each (Channels st)
                (process_channel (streamId st)
                   (getNumSamplesInBlock (streamId st)))
                (bank, buffer) with
        | Some (bank', buffer') => Some (<[streamId st := bank']> banks, buffer')
        | None => None
        end
    | None =>
        (* a null [streamSettings] is only dereferenced inside the loop *)
        match Channels st with
        | [] => Some (banks, buffer)
        | _ :: _ => None
        end
    end
  else Some (banks, buffer).

Definition process (s : BandstopFilter) (buffer : AudioBuffer)
    : option (BandstopFilter * AudioBuffer) :=
  match for_each (dataStreams s) process_stream (settings s, buffer) with
  | Some (banks, buffer') =>
      Some (mkBandstopFilter (dataStreams s) banks (bankCalls s), buffer')
  | None => None
  end.

(** *** Which cutoff an edit is about *)

Inductive CutoffField := LowCut | HighCut.

(** The branch of [parameterValueChanged] that the name of the edited
    parameter selects. *)
Definition editedField (param : Param) : option CutoffField :=
  if equalsIgnoreCase (paramName param) "low_cut" then Some LowCut
  else if equalsIgnoreCase (paramName param) "high_cut" then Some HighCut
  else None.

Definition restoreField (field : CutoffField) (st : DataStream) : DataStream :=
  match field with
  | LowCut => restore_low_cut st
  | HighCut => restore_high_cut st
  end.

(** The edit breaks the ordering: the test of the branch of [field]. *)
Definition violatesOrdering (field : CutoffField) (st : DataStream) : bool :=
  match field with
  | LowCut =>
      Binary64.geb (currentValue (low_cut st)) (currentValue (high_cut st))
  | HighCut =>
      Binary64.leb (currentValue (high_cut st)) (currentValue (low_cut st))
  end.

(** *** The cutoff pair a bank was last configured with *)

Definition callStream (c : BankCall) : N :=
  match c with
  | CreateFilters id _ _ _ _ => id
  | UpdateFilters id _ _ => id
  end.

Definition callCutoffs (c : BankCall) : float * float :=
  match c with
  | CreateFilters _ _ _ lowCut highCut => (lowCut, highCut)
  | UpdateFilters _ lowCut highCut => (lowCut, highCut)
  end.

Fixpoint lastConfigured (id : N) (calls : list BankCall)
    : option (float * float) :=
  match calls with
  | [] => None
  | c :: rest =>
      match lastConfigured id rest with
      | Some cutoffs => Some cutoffs
      | None => if N.eqb (callStream c) id then Some (callCutoffs c) else None
      end
  end.

Definition ordered (cutoffs : float * float) : Prop :=
  Binary64.ltb (fst cutoffs) (snd cutoffs) = true.

(** The bank of stream [id] has not been configured yet, or the last time
    with [lowCut < highCut]. *)
Definition bankOrdered (id : N) (calls : list BankCall) : Prop :=
  forall cutoffs, lastConfigured id calls = Some cutoffs -> ordered cutoffs.

(** *** The layout of the streams in the buffer *)

(** The buffer channels of the channels [0 .. channelCount) of a stream. *)
Definition streamChannels (st : DataStream) : list Z :=
  getGlobalChannelIndex (streamId st) <$> seqZ 0 (channelCount st).

(** Different channels of the streams are different buffer channels. *)
Definition channelsDisjoint (streams : list DataStream) : Prop :=
  NoDup (streams ≫= streamChannels).

(** Every mask selects channels of its stream. *)
Definition masksInRange (streams : list DataStream) : Prop :=
  Forall (fun st => Forall (fun l => 0 <= l < channelCount st) (Channels st))
         streams.

(** *** An edit, from the host's side *)

(** The host gives the parameter its new value and keeps the one it had;
    then it calls the handler. *)
Definition setNextValue (v : float) (p : FloatParameter) : FloatParameter :=
  mkFloatParameter v (currentValue p).

Definition editField (field : CutoffField) (v : float) (st : DataStream)
    : DataStream :=
  match field with
  | LowCut =>
      mkDataStream (streamId st) (channelCount st) (streamSampleRate st)
        (setNextValue v (low_cut st)) (high_cut st)
        (enable_stream st) (Channels st)
  | HighCut =>
      mkDataStream (streamId st) (channelCount st) (streamSampleRate st)
        (low_cut st) (setNextValue v (high_cut st))
        (enable_stream st) (Channels st)
  end.

Definition fieldName (field : CutoffField) : string :=
  match field with
  | LowCut => "low_cut"
  | HighCut => "high_cut"
  end.

Definition editCutoff (s : BandstopFilter) (id : N) (field : CutoffField)
    (v : float) : option BandstopFilter :=
  parameterValueChanged
    (mkBandstopFilter (updateStream id (editField field v) (dataStreams s))
       (settings s) (bankCalls s))
    (mkParam (fieldName field) id).

(** The cutoff pair of a stream. *)
Definition cutoffs (st : DataStream) : float * float :=
  (currentValue (low_cut st), currentValue (high_cut st)).

(** *** The life of a processor *)

(** Every stream has its cutoffs in order, and so has the last
    configuration of every bank. *)
Definition consistent (s : BandstopFilter) : Prop :=
  (forall st, st ∈ dataStreams s -> ordered (cutoffs st))
  /\ (forall id, bankOrdered id (bankCalls s)).

(** What happens to a processor: the host changes the streams (those it
    brings have their cutoffs in order, as the defaults 59 and 61 are), a
    reconciliation pass, the edit of a cutoff to a number, a block. *)
Inductive step : BandstopFilter -> BandstopFilter -> Prop :=
| step_streams s streams :
    (forall st, st ∈ streams -> ordered (cutoffs st)) ->
    step s (mkBandstopFilter streams (settings s) (bankCalls s))
| step_updateSettings s s' :
    updateSettings s = Some s' -> step s s'
| step_edit s id field v s' :
    Binary64.is_nan v = false ->
    editCutoff s id field v = Some s' -> step s s'
| step_process s buffer s' buffer' :
    process s buffer = Some (s', buffer') -> step s s'.

(** *** The shape of the buffer and of the banks *)

Definition bufferShape (buffer : AudioBuffer) : list nat :=
  length <$> buffer.

Definition bankSizes (banks : gmap N BandstopFilterSettings) : gmap N nat :=
  (fun b => length (filters b)) <$> banks.

(** The block can be processed for the stream: if the stream is enabled, it
    has a bank, and every channel of its mask has an instance in the bank
    and a buffer channel that holds the samples of the block. *)
Definition streamReady (sizes : gmap N nat) (shape : list nat)
    (st : DataStream) : Prop :=
  enable_stream st = true ->
  exists size,
    sizes !! streamId st = Some size
    /\ forall l, l ∈ Channels st ->
         0 <= l < Z.of_nat size
         /\ exists k,
              at_index shape (getGlobalChannelIndex (streamId st) l) = Some k
              /\ (getNumSamplesInBlock (streamId st) <= k)%nat.

(** The parameter of a stream that an edit of [field] is about, and the
    other cutoff. *)
Definition cutoffParameter (field : CutoffField) (st : DataStream)
    : FloatParameter :=
  match field with
  | LowCut => low_cut st
  | HighCut => high_cut st
  end.

Definition otherCutoffParameter (field : CutoffField) (st : DataStream)
    : FloatParameter :=
  match field with
  | LowCut => high_cut st
  | HighCut => low_cut st
  end.

(** *** What an edit and a block leave alone *)

(** The part of a stream that is not a cutoff. *)
Definition streamTopology (st : DataStream)
    : N * Z * float * bool * list Z :=
  (streamId st, channelCount st, streamSampleRate st, enable_stream st,
   Channels st).

(** The stored sample rate of a bank and the number of its instances. *)
Definition bankShape (b : BandstopFilterSettings) : float * nat :=
  (sampleRate b, length (filters b)).

(** The stored sample rate of a bank and the configuration of its
    instances. *)
Definition bankConfiguration (b : BandstopFilterSettings)
    : float * list Params :=
  (sampleRate b, configurations b).

(** A channel of the mask of an enabled stream can be processed: the
    stream has a bank with an instance for it, and its buffer channel is
    there and holds the samples of the block. *)
Definition selectionReady (sizes : gmap N nat) (shape : list nat)
    (st : DataStream) : Prop :=
  enable_stream st = true ->
  forall l, l ∈ Channels st ->
    exists size k,
      sizes !! streamId st = Some size
      /\ 0 <= l < Z.of_nat size
      /\ at_index shape (getGlobalChannelIndex (streamId st) l) = Some k
      /\ (getNumSamplesInBlock (streamId st) <= k)%nat.

(** The instance of channel [l] in the bank of stream [id]. *)
Definition instanceAt (banks : gmap N BandstopFilterSettings) (id : N) (l : Z)
    : option Filter :=
  match banks !! id with
  | Some bank => at_index (filters bank) l
  | None => None
  end.

(** ** The filter bank *)

Lemma at_index_nat {A} (l : list A) (k : nat) : at_index l (Z.of_nat k) = l !! k.
Proof.
  unfold at_index. destruct (Z.ltb_spec (Z.of_nat k) 0); [lia|].
  by rewrite Nat2Z.id.
Qed.

Lemma setFilterParameters_loop lowCut highCut (count : nat) :
  forall (k : nat) (b : BandstopFilterSettings),
    (k + count <= length (filters b))%nat ->
    exists b',
      for_range (Z.of_nat k) count (setFilterParameters lowCut highCut) b = Some b'
      /\ sampleRate b' = sampleRate b
      /\ length (filters b') = length (filters b)
      /\ forall i : nat,
           filters b' !! i =
             if decide (k <= i < k + count)%nat
             then setParams (filterParams (sampleRate b) lowCut highCut)
                    <$> filters b !! i
             else filters b !! i.
Proof.
  induction count as [|count IH]; intros k b Hk; simpl.
  - exists b. repeat split; try done.
    intros i. case_decide; [lia | done].
  - unfold setFilterParameters at 1. rewrite at_index_nat, Nat2Z.id.
    destruct (lookup_lt_is_Some_2 (filters b) k ltac:(lia)) as [f Hf].
    rewrite Hf.
    set (b1 := mkSettings _ _).
    destruct (IH (Datatypes.S k) b1) as (b' & Hrun & Hsr & Hlen & Hget).
    { subst b1; simpl. rewrite length_insert. lia. }
    exists b'. replace (Z.of_nat k + 1) with (Z.of_nat (Datatypes.S k)) by lia.
    split; [exact Hrun|]. split; [by rewrite Hsr|].
    split; [rewrite Hlen; subst b1; simpl; by rewrite length_insert|].
    intros i. rewrite Hget. subst b1; simpl.
    destruct (decide (i = k)) as [->|Hne].
    + rewrite list_lookup_insert_eq by lia.
      repeat case_decide; try lia. by rewrite Hf.
    + rewrite list_lookup_insert_ne by done.
      repeat case_decide; try lia; done.
Qed.

(** [updateFilters] never fails, and hands every instance the parameters
    computed from the stored sample rate and the two cutoffs. *)
Lemma updateFilters_spec lowCut highCut b :
  updateFilters lowCut highCut b =
    Some (mkSettings (sampleRate b)
            (setParams (filterParams (sampleRate b) lowCut highCut) <$> filters b)).
Proof.
  unfold updateFilters.
  destruct (setFilterParameters_loop lowCut highCut (length (filters b)) 0 b)
    as (b' & Hrun & Hsr & Hlen & Hget); [simpl; lia|].
  change (Z.of_nat 0) with 0 in Hrun. rewrite Hrun. f_equal.
  destruct b' as [sr' fs']; simpl in *. subst sr'. f_equal.
  apply list_eq. intros i. rewrite Hget, list_lookup_fmap.
  case_decide as Hi; [done|].
  rewrite (lookup_ge_None_2 (filters b) i) by lia. done.
Qed.

Lemma add_loop (count : nat) :
  forall (start : Z) (b : BandstopFilterSettings),
    for_range start count
      (fun _ b => Some (mkSettings (sampleRate b) (filters b ++ [newFilter]))) b
    = Some (mkSettings (sampleRate b) (filters b ++ replicate count newFilter)).
Proof.
  induction count as [|count IH]; intros start b; simpl.
  - rewrite app_nil_r. by destruct b.
  - rewrite IH. simpl. by rewrite <- app_assoc.
Qed.

(** [createFilters] never fails; its result depends on the arguments
    only, not on what the bank held before. *)
Lemma createFilters_spec numChannels sampleRate_ lowCut highCut b :
  createFilters numChannels sampleRate_ lowCut highCut b =
    Some (mkSettings sampleRate_
            (replicate (Z.to_nat numChannels)
               (setParams (filterParams sampleRate_ lowCut highCut) newFilter))).
Proof.
  unfold createFilters. rewrite add_loop. simpl.
  rewrite updateFilters_spec. simpl. by rewrite fmap_replicate.
Qed.

Lemma filterParams_cutoffs (sr lowCut highCut : float) :
  filterParams sr lowCut highCut =
    mkParams sr 4 ((lowCut + highCut) / 2) (highCut - lowCut).
Proof.
  unfold filterParams. by rewrite (Binary64.add_comm highCut lowCut).
Qed.

(** C1. For a channel count [n > 0] (and any sample rate and cutoffs, the
    valid ones among them), [createFilters n sr lowCut highCut] returns
    and leaves a bank of exactly [n] instances with stored sample rate
    [sr], every instance configured with sample rate [sr], order 4,
    center frequency [(lowCut + highCut) / 2] and bandwidth
    [highCut - lowCut]. *)
Theorem createFilters_configures
    (n : Z) (sr lowCut highCut : float) (b : BandstopFilterSettings) :
  0 < n ->
  exists b',
    createFilters n sr lowCut highCut b = Some b'
    /\ Z.of_nat (length (filters b')) = n
    /\ sampleRate b' = sr
    /\ Forall (fun f => f_params f =
                 mkParams sr 4 ((lowCut + highCut) / 2) (highCut - lowCut))
              (filters b').
Proof.
  intros Hn. rewrite createFilters_spec. eexists. split; [reflexivity|].
  simpl. rewrite length_replicate. split; [lia|]. split; [done|].
  apply Forall_replicate. simpl. apply filterParams_cutoffs.
Qed.

(** C4, as the code has it. [createFilters] checks nothing and has no way
    to fail: for every channel count, sample rate and cutoff pair, valid
    or not, it returns, and the bank it leaves holds [max n 0] instances,
    every one handed sample rate [sr], order 4, center
    [(lowCut + highCut) / 2] and bandwidth [highCut - lowCut]. *)
Theorem createFilters_never_fails
    (n : Z) (sr lowCut highCut : float) (b : BandstopFilterSettings) :
  exists b',
    createFilters n sr lowCut highCut b = Some b'
    /\ Z.of_nat (length (filters b')) = Z.max n 0
    /\ sampleRate b' = sr
    /\ Forall (fun f => f_params f =
                 mkParams sr 4 ((lowCut + highCut) / 2) (highCut - lowCut))
              (filters b').
Proof.
  rewrite createFilters_spec. eexists. split; [reflexivity|].
  simpl. rewrite length_replicate. split; [lia|]. split; [done|].
  apply Forall_replicate. simpl. apply filterParams_cutoffs.
Qed.

(** C8. [updateFilters lc hc] twice in a row leaves every instance with
    the configuration (sample rate, order, center frequency, bandwidth)
    that a single call leaves. *)
Theorem updateFilters_idempotent
    (lc hc : float) (b : BandstopFilterSettings) :
  exists b1 b2,
    updateFilters lc hc b = Some b1
    /\ updateFilters lc hc b1 = Some b2
    /\ configurations b2 = configurations b1
    /\ sampleRate b2 = sampleRate b1.
Proof.
  rewrite updateFilters_spec. eexists. eexists. split; [reflexivity|].
  rewrite updateFilters_spec. split; [reflexivity|].
  unfold configurations. simpl. split; [|done].
  rewrite <- !list_fmap_compose. by apply list_fmap_ext.
Qed.

(** C10. [updateFilters] returns, and keeps the number of instances and
    the stored sample rate of the bank; on a bank without instances it
    changes nothing. *)
Theorem updateFilters_keeps_shape
    (lc hc : float) (b : BandstopFilterSettings) :
  exists b',
    updateFilters lc hc b = Some b'
    /\ length (filters b') = length (filters b)
    /\ sampleRate b' = sampleRate b
    /\ (filters b = [] -> b' = b).
Proof.
  rewrite updateFilters_spec. eexists. split; [reflexivity|]. simpl.
  rewrite length_fmap. repeat split.
  intros Hnil. destruct b as [sr fs]; simpl in *. by subst fs.
Qed.

(** ** The cutoff edits *)

Lemma findStream_updateStream_eq id f streams st :
  streamId (f st) = streamId st ->
  findStream id streams = Some st ->
  findStream id (updateStream id f streams) = Some (f st).
Proof.
  intros Hid. induction streams as [|st0 rest IH]; simpl; [done|].
  destruct (N.eqb (streamId st0) id) eqn:E; simpl.
  - intros [= ->]. by rewrite Hid, E.
  - rewrite E. exact IH.
Qed.

Lemma findStream_updateStream_ne id id' f streams :
  (forall st, streamId (f st) = streamId st) ->
  id' <> id ->
  findStream id' (updateStream id f streams) = findStream id' streams.
Proof.
  intros Hid Hne. induction streams as [|st0 rest IH]; simpl; [done|].
  destruct (N.eqb (streamId st0) id) eqn:E; simpl.
  - rewrite Hid. apply N.eqb_eq in E. rewrite E.
    destruct (N.eqb_spec id id'); [congruence|done].
  - by rewrite IH.
Qed.

Lemma editedField_LowCut param :
  editedField param = Some LowCut ->
  equalsIgnoreCase (paramName param) "low_cut" = true.
Proof.
  unfold editedField.
  destruct (equalsIgnoreCase (paramName param) "low_cut"); [done|].
  destruct (equalsIgnoreCase (paramName param) "high_cut"); discriminate.
Qed.

Lemma editedField_HighCut param :
  editedField param = Some HighCut ->
  equalsIgnoreCase (paramName param) "low_cut" = false
  /\ equalsIgnoreCase (paramName param) "high_cut" = true.
Proof.
  unfold editedField.
  destruct (equalsIgnoreCase (paramName param) "low_cut"); [discriminate|].
  destruct (equalsIgnoreCase (paramName param) "high_cut"); [done|discriminate].
Qed.

(** The two branches of the handler are one: reject and restore, or
    retune with the pair of the stream. *)
Lemma parameterValueChanged_cutoff s param field st :
  editedField param = Some field ->
  getDataStream s (paramStreamId param) = Some st ->
  parameterValueChanged s param =
    if violatesOrdering field st
    then Some (mkBandstopFilter
                 (updateStream (paramStreamId param) (restoreField field)
                    (dataStreams s))
                 (settings s) (bankCalls s))
    else retune s (paramStreamId param)
           (currentValue (low_cut st)) (currentValue (high_cut st)).
Proof.
  intros Hf Hst. unfold parameterValueChanged. destruct field.
  - rewrite (editedField_LowCut _ Hf), Hst. done.
  - destruct (editedField_HighCut _ Hf) as [-> ->]. rewrite Hst. done.
Qed.

Lemma parameterValueChanged_other s param :
  editedField param = None -> parameterValueChanged s param = Some s.
Proof.
  unfold editedField, parameterValueChanged.
  destruct (equalsIgnoreCase (paramName param) "low_cut"); [discriminate|].
  destruct (equalsIgnoreCase (paramName param) "high_cut"); [discriminate|done].
Qed.

Lemma restoreField_streamId field st :
  streamId (restoreField field st) = streamId st.
Proof. by destruct field. Qed.

Lemma lastConfigured_snoc id calls c :
  lastConfigured id (calls ++ [c]) =
    if N.eqb (callStream c) id then Some (callCutoffs c)
    else lastConfigured id calls.
Proof.
  induction calls as [|c0 rest IH]; simpl.
  - done.
  - rewrite IH. destruct (N.eqb (callStream c) id); [done|].
    by destruct (lastConfigured id rest).
Qed.

Lemma bankOrdered_snoc id calls c :
  bankOrdered id calls -> ordered (callCutoffs c) ->
  bankOrdered id (calls ++ [c]).
Proof.
  intros Hord Hc pair. rewrite lastConfigured_snoc.
  destruct (N.eqb (callStream c) id); [by intros [= <-]|apply Hord].
Qed.

Lemma retune_Some s id lowCut highCut s' :
  retune s id lowCut highCut = Some s' ->
  exists b b',
    settings s !! id = Some b
    /\ updateFilters lowCut highCut b = Some b'
    /\ s' = mkBandstopFilter (dataStreams s) (<[id := b']> (settings s))
              (bankCalls s ++ [UpdateFilters id lowCut highCut]).
Proof.
  unfold retune. destruct (settings s !! id) as [b|] eqn:Hb; [|done].
  destruct (updateFilters lowCut highCut b) as [b'|] eqn:Hb'; [|done].
  intros [= <-]. by exists b, b'.
Qed.

(** C2. An edit that breaks the ordering (the edited low cutoff is
    [>=] the high cutoff, or the edited high cutoff is [<=] the low one)
    is rejected: the handler returns, the current value of the edited
    parameter of the stream is its previous value again, the other cutoff
    and the rest of the stream are as they were and so are the other
    streams, no bank has been touched and no call has been made on any. *)
Theorem rejected_edit_restores
    (s : BandstopFilter) (param : Param) (field : CutoffField)
    (st : DataStream) :
  editedField param = Some field ->
  getDataStream s (paramStreamId param) = Some st ->
  violatesOrdering field st = true ->
  exists s',
    parameterValueChanged s param = Some s'
    /\ settings s' = settings s
    /\ bankCalls s' = bankCalls s
    /\ getDataStream s' (paramStreamId param) = Some (restoreField field st)
    /\ (forall id, id <> paramStreamId param ->
          getDataStream s' id = getDataStream s id)
    /\ exists st',
         getDataStream s' (paramStreamId param) = Some st'
         /\ currentValue (cutoffParameter field st')
            = previousValue (cutoffParameter field st)
         /\ otherCutoffParameter field st' = otherCutoffParameter field st
         /\ streamTopology st' = streamTopology st.
Proof.
  intros Hf Hst Hv.
  rewrite (parameterValueChanged_cutoff s param field st Hf Hst), Hv.
  assert (Hfound :
            findStream (paramStreamId param)
              (updateStream (paramStreamId param) (restoreField field)
                 (dataStreams s))
            = Some (restoreField field st)).
  { apply findStream_updateStream_eq; [apply restoreField_streamId|exact Hst]. }
  eexists. split; [reflexivity|]. simpl.
  split; [done|]. split; [done|]. split; [exact Hfound|]. split.
  - intros id Hne. unfold getDataStream; simpl.
    apply findStream_updateStream_ne; [apply restoreField_streamId|exact Hne].
  - exists (restoreField field st). split; [exact Hfound|].
    by destruct field.
Qed.

(** C3. The handling of a cutoff edit of a stream whose cutoffs are
    numbers keeps, for every stream, the order [lowCut < highCut] of the
    pair its bank was last configured with. The edit was either rejected
    (no call, banks as before) or accepted, and then [updateFilters] ran on
    the bank of the stream with the pair of the stream: this pair is in
    order, and it is the one the bank was last configured with. *)
Theorem handled_edit_keeps_order
    (s s' : BandstopFilter) (param : Param) (field : CutoffField)
    (st : DataStream) :
  editedField param = Some field ->
  getDataStream s (paramStreamId param) = Some st ->
  Binary64.is_nan (currentValue (low_cut st)) = false ->
  Binary64.is_nan (currentValue (high_cut st)) = false ->
  parameterValueChanged s param = Some s' ->
  (forall id, bankOrdered id (bankCalls s) -> bankOrdered id (bankCalls s'))
  /\ ((violatesOrdering field st = true
       /\ bankCalls s' = bankCalls s /\ settings s' = settings s)
      \/ (violatesOrdering field st = false
          /\ ordered (cutoffs st)
          /\ lastConfigured (paramStreamId param) (bankCalls s')
             = Some (cutoffs st)
          /\ getDataStream s' (paramStreamId param) = Some st
          /\ exists b b',
               settings s !! paramStreamId param = Some b
               /\ updateFilters (currentValue (low_cut st))
                    (currentValue (high_cut st)) b = Some b'
               /\ settings s' = <[paramStreamId param := b']> (settings s)
               /\ bankCalls s' =
                    bankCalls s ++
                      [UpdateFilters (paramStreamId param)
                         (currentValue (low_cut st))
                         (currentValue (high_cut st))])).
Proof.
  intros Hf Hst Hlo Hhi.
  rewrite (parameterValueChanged_cutoff s param field st Hf Hst).
  destruct (violatesOrdering field st) eqn:Hv.
  - intros [= <-]. simpl. split; [done|]. by left.
  - intros Hrun. apply retune_Some in Hrun as (b & b' & Hb & Hb' & ->).
    assert (Hlt : ordered (cutoffs st)).
    { unfold ordered, cutoffs; simpl. apply Binary64.not_geb_ltb; try done.
      by destruct field. }
    simpl. split.
    + intros id Hord. by apply bankOrdered_snoc.
    + right. split; [done|]. split; [done|]. split.
      { rewrite lastConfigured_snoc. simpl. by rewrite N.eqb_refl. }
      split; [exact Hst|]. by exists b, b'.
Qed.

(** C9. Whatever the handling of an edit on stream A does, the bank of
    every other stream B is the one it was. *)
Theorem edit_leaves_other_banks
    (s s' : BandstopFilter) (param : Param) (other : N) :
  parameterValueChanged s param = Some s' ->
  other <> paramStreamId param ->
  settings s' !! other = settings s !! other.
Proof.
  intros Hrun Hne. unfold parameterValueChanged in Hrun.
  assert (Hretune : forall lc hc,
            retune s (paramStreamId param) lc hc = Some s' ->
            settings s' !! other = settings s !! other).
  { intros lc hc H. apply retune_Some in H as (b & b' & _ & _ & ->).
    simpl. by rewrite lookup_insert_ne. }
  destruct (equalsIgnoreCase (paramName param) "low_cut").
  - destruct (getDataStream s (paramStreamId param)) as [st|]; [|done].
    destruct (Binary64.geb _ _); [by injection Hrun as <-|eauto].
  - destruct (equalsIgnoreCase (paramName param) "high_cut").
    + destruct (getDataStream s (paramStreamId param)) as [st|]; [|done].
      destruct (Binary64.leb _ _); [by injection Hrun as <-|eauto].
    + by injection Hrun as <-.
Qed.

(** The handler returns whenever the stream of the parameter and its bank
    are there. *)
Lemma parameterValueChanged_returns s param st :
  getDataStream s (paramStreamId param) = Some st ->
  is_Some (settings s !! paramStreamId param) ->
  is_Some (parameterValueChanged s param).
Proof.
  intros Hst [b Hb].
  assert (Hretune : forall lc hc,
            is_Some (retune s (paramStreamId param) lc hc)).
  { intros lc hc. unfold retune. rewrite Hb, updateFilters_spec. eauto. }
  destruct (editedField param) as [field|] eqn:Hf.
  - rewrite (parameterValueChanged_cutoff s param field st Hf Hst).
    destruct (violatesOrdering field st); eauto.
  - rewrite (parameterValueChanged_other s param Hf). eauto.
Qed.

Lemma editedField_fieldName field id :
  editedField (mkParam (fieldName field) id) = Some field.
Proof. by destruct field. Qed.

Lemma editField_streamId field v st :
  streamId (editField field v st) = streamId st.
Proof. by destruct field. Qed.

Lemma restoreField_editField field v st :
  cutoffs (restoreField field (editField field v st)) = cutoffs st.
Proof. by destruct field. Qed.

Lemma findStream_None_updateStream id f streams :
  findStream id streams = None ->
  updateStream id f streams = streams.
Proof.
  induction streams as [|st0 rest IH]; simpl; [done|].
  destruct (N.eqb (streamId st0) id); [done|].
  intros H. by rewrite IH.
Qed.

Lemma findStream_elem id streams st :
  findStream id streams = Some st -> st ∈ streams /\ streamId st = id.
Proof.
  induction streams as [|st0 rest IH]; simpl; [done|].
  destruct (N.eqb_spec (streamId st0) id) as [Heq|Hne].
  - intros [= ->]. split; [by left|done].
  - intros H. destruct (IH H). split; [by right|done].
Qed.

Lemma elem_of_updateStream id f streams st' :
  st' ∈ updateStream id f streams ->
  st' ∈ streams \/ exists st, findStream id streams = Some st /\ st' = f st.
Proof.
  induction streams as [|st0 rest IH]; simpl; [by left|].
  destruct (N.eqb (streamId st0) id).
  - intros [->|Hin]%elem_of_cons; [right; by exists st0|left; by right].
  - intros [->|Hin]%elem_of_cons; [left; by left|].
    destruct (IH Hin) as [?|?]; [left; by right|by right].
Qed.

Lemma updateStream_compose id f g streams :
  (forall st, streamId (f st) = streamId st) ->
  updateStream id g (updateStream id f streams)
  = updateStream id (fun st => g (f st)) streams.
Proof.
  intros Hid. induction streams as [|st0 rest IH]; simpl; [done|].
  destruct (N.eqb (streamId st0) id) eqn:E; simpl.
  - by rewrite Hid, E.
  - by rewrite E, IH.
Qed.

(** An edit, seen from the host: the stream is found with the new value in
    place, and the handler rejects it and restores, or retunes the bank. *)
Lemma editCutoff_spec s id field v st :
  getDataStream s id = Some st ->
  editCutoff s id field v =
    if violatesOrdering field (editField field v st)
    then Some (mkBandstopFilter
                 (updateStream id
                    (fun st => restoreField field (editField field v st))
                    (dataStreams s))
                 (settings s) (bankCalls s))
    else retune
           (mkBandstopFilter (updateStream id (editField field v) (dataStreams s))
              (settings s) (bankCalls s))
           id
           (fst (cutoffs (editField field v st)))
           (snd (cutoffs (editField field v st))).
Proof.
  intros Hst. unfold editCutoff.
  rewrite (parameterValueChanged_cutoff _ _ field (editField field v st));
    simpl.
  - rewrite updateStream_compose by apply editField_streamId. done.
  - apply editedField_fieldName.
  - unfold getDataStream; simpl.
    apply findStream_updateStream_eq; [apply editField_streamId|exact Hst].
Qed.

(** A rejected edit leaves the stream with the cutoffs it had before the
    edit, and the banks as they were. *)
Lemma editCutoff_rejected s id field v st :
  getDataStream s id = Some st ->
  violatesOrdering field (editField field v st) = true ->
  exists s' st',
    editCutoff s id field v = Some s'
    /\ settings s' = settings s
    /\ bankCalls s' = bankCalls s
    /\ getDataStream s' id = Some st'
    /\ cutoffs st' = cutoffs st.
Proof.
  intros Hst Hv. rewrite (editCutoff_spec s id field v st Hst), Hv.
  eexists. exists (restoreField field (editField field v st)).
  split; [reflexivity|]. simpl. repeat split.
  - unfold getDataStream; simpl.
    apply (findStream_updateStream_eq id
             (fun st => restoreField field (editField field v st))); [|exact Hst].
    by rewrite restoreField_streamId, editField_streamId.
  - apply restoreField_editField.
Qed.

(** ** Reconciliation *)

(** The bank [createFilters] leaves for a stream and the call it is. *)
Definition rebuiltBank (st : DataStream) : BandstopFilterSettings :=
  mkSettings (streamSampleRate st)
    (replicate (Z.to_nat (channelCount st))
       (setParams
          (filterParams (streamSampleRate st)
             (currentValue (low_cut st)) (currentValue (high_cut st)))
          newFilter)).

Definition rebuildCall (st : DataStream) : BankCall :=
  CreateFilters (streamId st) (channelCount st) (streamSampleRate st)
    (currentValue (low_cut st)) (currentValue (high_cut st)).

Lemma settings_update_lookup streams m st :
  st ∈ streams ->
  settings_update streams m !! streamId st =
    Some (default defaultSettings (m !! streamId st)).
Proof.
  induction streams as [|st0 rest IH]; simpl.
  - by intros ?%elem_of_nil.
  - intros Hin. destruct (decide (streamId st0 = streamId st)) as [Heq|Hne].
    + by rewrite Heq, lookup_insert_eq.
    + rewrite lookup_insert_ne by done. apply IH.
      apply elem_of_cons in Hin as [->|Hin]; [done|exact Hin].
Qed.

Lemma rebuild_spec st s :
  is_Some (settings s !! streamId st) ->
  rebuild st s =
    Some (mkBandstopFilter (dataStreams s)
            (<[streamId st := rebuiltBank st]> (settings s))
            (bankCalls s ++ [rebuildCall st])).
Proof.
  intros [b Hb]. unfold rebuild. by rewrite Hb, createFilters_spec.
Qed.

Lemma rebuild_loop (streams : list DataStream) :
  forall s : BandstopFilter,
    (forall st, st ∈ streams -> is_Some (settings s !! streamId st)) ->
    for_each streams rebuild s =
      Some (mkBandstopFilter (dataStreams s)
              (foldl (fun m st => <[streamId st := rebuiltBank st]> m)
                 (settings s) streams)
              (bankCalls s ++ (rebuildCall <$> streams))).
Proof.
  induction streams as [|st rest IH]; intros s Hbanks; simpl.
  - rewrite app_nil_r. by destruct s.
  - rewrite rebuild_spec by (apply Hbanks; left).
    rewrite IH; simpl.
    + by rewrite <- app_assoc.
    + intros st' Hin. destruct (decide (streamId st = streamId st')) as [->|Hne].
      * rewrite lookup_insert_eq. eauto.
      * rewrite lookup_insert_ne by done. apply Hbanks. by right.
Qed.

Lemma rebuilt_lookup_other (streams : list DataStream) :
  forall (m : gmap N BandstopFilterSettings) (id : N),
    id ∉ streamId <$> streams ->
    foldl (fun m st => <[streamId st := rebuiltBank st]> m) m streams !! id
    = m !! id.
Proof.
  induction streams as [|st rest IH]; intros m id Hid; simpl; [done|].
  rewrite fmap_cons, not_elem_of_cons in Hid. destruct Hid as [Hne Hid].
  rewrite IH by done. by rewrite lookup_insert_ne.
Qed.

Lemma rebuilt_lookup (streams : list DataStream) :
  forall (m : gmap N BandstopFilterSettings) (st : DataStream),
    NoDup (streamId <$> streams) ->
    st ∈ streams ->
    foldl (fun m st => <[streamId st := rebuiltBank st]> m) m streams
      !! streamId st
    = Some (rebuiltBank st).
Proof.
  induction streams as [|st0 rest IH]; intros m st Hnd Hin; simpl.
  - by apply elem_of_nil in Hin.
  - rewrite fmap_cons in Hnd. apply NoDup_cons in Hnd as [Hfresh Hnd].
    apply elem_of_cons in Hin as [->|Hin].
    + rewrite rebuilt_lookup_other by done. by rewrite lookup_insert_eq.
    + by apply IH.
Qed.

(** C5. A reconciliation pass returns, and for every stream of the
    processor it calls [createFilters] on the bank of the stream
    ([settings.update] has made sure there is one) with the channel
    count, the sample rate and the two cutoffs the stream has now, in the
    order of the streams and without looking at what changed: the bank of
    the stream is afterwards what that call returns. *)
Theorem updateSettings_rebuilds_every_stream (s : BandstopFilter) :
  NoDup (streamId <$> dataStreams s) ->
  exists s',
    updateSettings s = Some s'
    /\ dataStreams s' = dataStreams s
    /\ bankCalls s' = bankCalls s ++ (rebuildCall <$> dataStreams s)
    /\ forall st, st ∈ dataStreams s ->
         settings s' !! streamId st =
           createFilters (channelCount st) (streamSampleRate st)
             (currentValue (low_cut st)) (currentValue (high_cut st))
             (default defaultSettings (settings s !! streamId st)).
Proof.
  intros Hnd. unfold updateSettings. simpl.
  rewrite rebuild_loop; simpl.
  - eexists. split; [reflexivity|]. simpl. split; [done|]. split; [done|].
    intros st Hin. rewrite createFilters_spec. by apply rebuilt_lookup.
  - intros st Hin. rewrite settings_update_lookup by done. eauto.
Qed.

(** ** Block processing: what is left alone *)

Lemma at_index_Some_nonneg {A} (l : list A) (i : Z) (x : A) :
  at_index l i = Some x -> 0 <= i.
Proof. unfold at_index. destruct (Z.ltb_spec i 0); [done|lia]. Qed.

Lemma at_index_insert_ne {A} (l : list A) (i j : Z) (x : A) :
  0 <= i -> i <> j ->
  at_index (<[Z.to_nat i := x]> l) j = at_index l j.
Proof.
  intros Hi Hne. unfold at_index. destruct (Z.ltb_spec j 0); [done|].
  apply list_lookup_insert_ne. lia.
Qed.

Lemma process_channel_frame id numSamples l bank buffer bank' buffer' g :
  process_channel id numSamples l (bank, buffer) = Some (bank', buffer') ->
  getGlobalChannelIndex id l <> g ->
  at_index buffer' g = at_index buffer g.
Proof.
  unfold process_channel. intros Hrun Hne.
  destruct (at_index buffer (getGlobalChannelIndex id l)) as [samples|] eqn:Hs;
    [|done].
  destruct (at_index (filters bank) l) as [f|]; [|done].
  destruct (numSamples <=? length samples)%nat; [|done].
  destruct (processFilter f (take numSamples samples)) as [f' out].
  injection Hrun as <- <-.
  apply at_index_insert_ne; [by eapply at_index_Some_nonneg|done].
Qed.

Lemma process_channels_frame id numSamples g (chs : list Z) :
  forall bank buffer bank' buffer',
    for_each chs (process_channel id numSamples) (bank, buffer)
      = Some (bank', buffer') ->
    (forall l, l ∈ chs -> getGlobalChannelIndex id l <> g) ->
    at_index buffer' g = at_index buffer g.
Proof.
  induction chs as [|l rest IH]; intros bank buffer bank' buffer';
    cbn [for_each].
  - by intros [= <- <-].
  - destruct (process_channel id numSamples l (bank, buffer))
      as [[bank1 buffer1]|] eqn:Hstep; [|done].
    intros Hrun Hne.
    rewrite (IH _ _ _ _ Hrun) by (intros; apply Hne; by right).
    eapply process_channel_frame; [exact Hstep|]. apply Hne. by left.
Qed.

Lemma process_stream_frame st banks buffer banks' buffer' g :
  process_stream st (banks, buffer) = Some (banks', buffer') ->
  (enable_stream st = true ->
   forall l, l ∈ Channels st -> getGlobalChannelIndex (streamId st) l <> g) ->
  at_index buffer' g = at_index buffer g.
Proof.
  unfold process_stream. intros Hrun Hne.
  destruct (enable_stream st); [|by injection Hrun as <- <-].
  destruct (banks !! streamId st) as [bank|].
  - destruct (for_each _ _ _) as [[bank' buffer1]|] eqn:Hloop; [|done].
    injection Hrun as <- <-.
    eapply process_channels_frame; [exact Hloop|]. by apply Hne.
  - destruct (Channels st); [by injection Hrun as <- <-|done].
Qed.

Lemma process_streams_frame g (streams : list DataStream) :
  forall banks buffer banks' buffer',
    for_each streams process_stream (banks, buffer) = Some (banks', buffer') ->
    (forall st, st ∈ streams -> enable_stream st = true ->
       forall l, l ∈ Channels st ->
         getGlobalChannelIndex (streamId st) l <> g) ->
    at_index buffer' g = at_index buffer g.
Proof.
  induction streams as [|st rest IH]; intros banks buffer banks' buffer';
    cbn [for_each].
  - by intros [= <- <-].
  - destruct (process_stream st (banks, buffer))
      as [[banks1 buffer1]|] eqn:Hstep; [|done].
    intros Hrun Hne.
    rewrite (IH _ _ _ _ Hrun) by (intros ? ?; apply Hne; by right).
    eapply process_stream_frame; [exact Hstep|]. apply Hne. by left.
Qed.

(** A buffer channel that no selected channel of an enabled stream is
    mapped to comes out of [process] as it went in. *)
Lemma process_frame s buffer s' buffer' g :
  process s buffer = Some (s', buffer') ->
  (forall st, st ∈ dataStreams s -> enable_stream st = true ->
     forall l, l ∈ Channels st ->
       getGlobalChannelIndex (streamId st) l <> g) ->
  at_index buffer' g = at_index buffer g.
Proof.
  unfold process.
  destruct (for_each _ _ _) as [[banks buffer1]|] eqn:Hloop; [|done].
  intros [= <- <-]. by eapply process_streams_frame.
Qed.

(** *** The layout *)

Lemma streamChannels_elem st l :
  0 <= l < channelCount st ->
  getGlobalChannelIndex (streamId st) l ∈ streamChannels st.
Proof.
  intros Hl. unfold streamChannels. apply list_elem_of_fmap_2.
  apply elem_of_seqZ. lia.
Qed.

Lemma bind_NoDup_disjoint {A B} (f : A -> list B) (l : list A) :
  forall (i j : nat) (a b : A) (y : B),
    NoDup (l ≫= f) ->
    l !! i = Some a -> l !! j = Some b -> i <> j ->
    y ∈ f a -> y ∈ f b -> False.
Proof.
  induction l as [|a0 rest IH]; intros i j a b y Hnd Hi Hj Hij Hya Hyb;
    [done|].
  rewrite bind_cons in Hnd. apply NoDup_app in Hnd as (_ & Hsep & Hnd).
  destruct i as [|i], j as [|j]; simpl in *; simplify_eq.
  - apply (Hsep y Hya). apply list_elem_of_bind. exists b.
    split; [done|]. by eapply list_elem_of_lookup_2.
  - apply (Hsep y Hyb). apply list_elem_of_bind. exists a.
    split; [done|]. by eapply list_elem_of_lookup_2.
  - eapply (IH i j); eauto.
Qed.

Lemma bind_NoDup_each {A B} (f : A -> list B) (l : list A) (a : A) :
  NoDup (l ≫= f) -> a ∈ l -> NoDup (f a).
Proof.
  induction l as [|a0 rest IH]; intros Hnd Hin; [by apply elem_of_nil in Hin|].
  rewrite bind_cons in Hnd. apply NoDup_app in Hnd as (Ha0 & _ & Hnd).
  apply elem_of_cons in Hin as [->|Hin]; [done|by apply IH].
Qed.

Lemma fmap_NoDup_inj {A B} (f : A -> B) (l : list A) (x y : A) :
  NoDup (f <$> l) -> x ∈ l -> y ∈ l -> f x = f y -> x = y.
Proof.
  induction l as [|a rest IH]; intros Hnd Hx Hy Hxy;
    [by apply elem_of_nil in Hx|].
  rewrite fmap_cons in Hnd. apply NoDup_cons in Hnd as [Hfresh Hnd].
  apply elem_of_cons in Hx as [->|Hx]; apply elem_of_cons in Hy as [->|Hy].
  - done.
  - exfalso. apply Hfresh. rewrite Hxy. by apply list_elem_of_fmap_2.
  - exfalso. apply Hfresh. rewrite <- Hxy. by apply list_elem_of_fmap_2.
  - by apply IH.
Qed.

Lemma selected_channel_elsewhere (streams : list DataStream) A B g l :
  channelsDisjoint streams ->
  masksInRange streams ->
  A ∈ streams -> B ∈ streams ->
  A <> B ->
  g ∈ streamChannels A ->
  l ∈ Channels B ->
  getGlobalChannelIndex (streamId B) l <> g.
Proof.
  intros Hdis Hmask HA HB HAB Hg Hl Heq.
  apply list_elem_of_lookup_1 in HA as [i Hi].
  pose proof HB as HB'. apply list_elem_of_lookup_1 in HB' as [j Hj].
  assert (Hij : i <> j) by (intros ->; congruence).
  unfold masksInRange in Hmask. rewrite Forall_forall in Hmask.
  specialize (Hmask B HB). rewrite Forall_forall in Hmask.
  apply (bind_NoDup_disjoint streamChannels streams i j A B g Hdis Hi Hj Hij Hg).
  rewrite <- Heq. apply streamChannels_elem. by apply Hmask.
Qed.

(** C6. [process] leaves every buffer channel of a stream whose enabled
    flag is false as it was, sample for sample (the streams lie apart in
    the buffer and the masks select channels of their streams). *)
Theorem disabled_stream_untouched
    (s s' : BandstopFilter) (buffer buffer' : AudioBuffer)
    (A : DataStream) (g : Z) :
  channelsDisjoint (dataStreams s) ->
  masksInRange (dataStreams s) ->
  A ∈ dataStreams s ->
  enable_stream A = false ->
  g ∈ streamChannels A ->
  process s buffer = Some (s', buffer') ->
  at_index buffer' g = at_index buffer g.
Proof.
  intros Hdis Hmask HA Hoff Hg Hrun.
  apply (process_frame s buffer s' buffer' g Hrun).
  intros B HB Hon l Hl.
  apply (selected_channel_elsewhere (dataStreams s) A B g l); try done.
  intros ->. congruence.
Qed.

(** C7. [process] leaves every channel of an enabled stream that is not
    in the channel mask of the stream as it was, sample for sample (the
    streams lie apart in the buffer and the masks select channels of
    their streams). *)
Theorem unselected_channel_untouched
    (s s' : BandstopFilter) (buffer buffer' : AudioBuffer)
    (A : DataStream) (l : Z) :
  channelsDisjoint (dataStreams s) ->
  masksInRange (dataStreams s) ->
  A ∈ dataStreams s ->
  enable_stream A = true ->
  0 <= l < channelCount A ->
  l ∉ Channels A ->
  process s buffer = Some (s', buffer') ->
  at_index buffer' (getGlobalChannelIndex (streamId A) l)
  = at_index buffer (getGlobalChannelIndex (streamId A) l).
Proof.
  intros Hdis Hmask HA _ Hl Hout Hrun.
  apply (process_frame s buffer s' buffer' _ Hrun).
  intros B HB Hon l' Hl'.
  destruct (decide (l' = l)) as [->|Hne].
  - intros Heq. apply Hout.
    (* the same buffer channel, so the same stream *)
    pose proof HA as HA'. apply list_elem_of_lookup_1 in HA' as [i Hi].
    pose proof HB as HB'. apply list_elem_of_lookup_1 in HB' as [j Hj].
    destruct (decide (i = j)) as [->|Hij]; [by simplify_eq|].
    exfalso.
    apply (bind_NoDup_disjoint streamChannels (dataStreams s) i j A B
             (getGlobalChannelIndex (streamId A) l) Hdis Hi Hj Hij).
    + by apply streamChannels_elem.
    + rewrite <- Heq. apply streamChannels_elem.
      unfold masksInRange in Hmask. rewrite Forall_forall in Hmask.
      specialize (Hmask B HB). rewrite Forall_forall in Hmask. by apply Hmask.
  - intros Heq.
    pose proof HA as HA'. apply list_elem_of_lookup_1 in HA' as [i Hi].
    pose proof HB as HB'. apply list_elem_of_lookup_1 in HB' as [j Hj].
    assert (Hl'r : 0 <= l' < channelCount B).
    { unfold masksInRange in Hmask. rewrite Forall_forall in Hmask.
      specialize (Hmask B HB). rewrite Forall_forall in Hmask. by apply Hmask. }
    destruct (decide (i = j)) as [->|Hij].
    + simplify_eq. apply Hne.
      apply (fmap_NoDup_inj (getGlobalChannelIndex (streamId A))
               (seqZ 0 (channelCount A))); try (apply elem_of_seqZ; lia); try done.
      apply (bind_NoDup_each streamChannels (dataStreams s) A Hdis HA).
    + apply (bind_NoDup_disjoint streamChannels (dataStreams s) i j A B
               (getGlobalChannelIndex (streamId A) l) Hdis Hi Hj Hij).
      * by apply streamChannels_elem.
      * rewrite <- Heq. by apply streamChannels_elem.
Qed.

(** ** The cutoffs stay in order *)

Lemma bankOrdered_app id calls more :
  bankOrdered id calls ->
  Forall (fun c => ordered (callCutoffs c)) more ->
  bankOrdered id (calls ++ more).
Proof.
  intros Hord Hmore. revert calls Hord.
  induction Hmore as [|c more Hc _ IH]; intros calls Hord.
  - by rewrite app_nil_r.
  - rewrite (cons_middle c calls more), app_assoc.
    apply IH. by apply bankOrdered_snoc.
Qed.

Lemma updateSettings_spec s :
  updateSettings s =
    Some (mkBandstopFilter (dataStreams s)
            (foldl (fun m st => <[streamId st := rebuiltBank st]> m)
               (settings_update (dataStreams s) (settings s)) (dataStreams s))
            (bankCalls s ++ (rebuildCall <$> dataStreams s))).
Proof.
  unfold updateSettings. simpl. rewrite rebuild_loop; [done|].
  simpl. intros st Hin. rewrite settings_update_lookup by done. eauto.
Qed.

Lemma process_keeps_streams s buffer s' buffer' :
  process s buffer = Some (s', buffer') ->
  dataStreams s' = dataStreams s /\ bankCalls s' = bankCalls s.
Proof.
  unfold process. destruct (for_each _ _ _) as [[banks buffer1]|]; [|done].
  by intros [= <- <-].
Qed.

Lemma accepted_edit_ordered field v st :
  Binary64.is_nan v = false ->
  ordered (cutoffs st) ->
  violatesOrdering field (editField field v st) = false ->
  ordered (cutoffs (editField field v st)).
Proof.
  intros Hv Hst Hok.
  destruct (Binary64.ltb_not_nan _ _ Hst) as [Hlo Hhi].
  unfold ordered. destruct field; simpl in *;
    by apply Binary64.not_geb_ltb.
Qed.

(** Nothing that happens to a processor breaks the order of the cutoffs:
    of the streams, and of the last configuration of every bank. *)
Lemma consistent_step s s' : consistent s -> step s s' -> consistent s'.
Proof.
  intros [Hstreams Hcalls] Hstep.
  destruct Hstep as [s streams Hnew|s s' Hrun|s id field v s' Hv Hrun
                    |s buffer s' buffer' Hrun].
  - split; [exact Hnew|exact Hcalls].
  - rewrite updateSettings_spec in Hrun. injection Hrun as <-.
    split; simpl; [exact Hstreams|].
    intros id. apply bankOrdered_app; [apply Hcalls|].
    apply Forall_fmap, Forall_forall. intros st Hin. by apply Hstreams.
  - destruct (getDataStream s id) as [st|] eqn:Hst.
    + destruct (findStream_elem _ _ _ Hst) as [Hin _].
      rewrite (editCutoff_spec s id field v st Hst) in Hrun.
      destruct (violatesOrdering field (editField field v st)) eqn:Hviol.
      * injection Hrun as <-. split; simpl; [|exact Hcalls].
        intros st' [Hin'|(st0 & Hst0 & ->)]%elem_of_updateStream;
          [by apply Hstreams|].
        unfold getDataStream in Hst. rewrite Hst in Hst0.
        injection Hst0 as <-.
        rewrite restoreField_editField. by apply Hstreams.
      * pose proof (accepted_edit_ordered field v st Hv (Hstreams st Hin) Hviol)
          as Hord.
        apply retune_Some in Hrun as (b & b' & _ & _ & ->). split; simpl.
        -- intros st' [Hin'|(st0 & Hst0 & ->)]%elem_of_updateStream;
             [by apply Hstreams|].
           unfold getDataStream in Hst. rewrite Hst in Hst0.
           by injection Hst0 as <-.
        -- intros id'. by apply bankOrdered_snoc.
    + exfalso. unfold editCutoff, parameterValueChanged in Hrun.
      simpl in Hrun. unfold getDataStream in *. simpl in Hrun.
      rewrite (findStream_None_updateStream _ _ _ Hst), Hst in Hrun.
      by destruct field.
  - destruct (process_keeps_streams _ _ _ _ Hrun) as [Hs Hc].
    split; [by rewrite Hs|by rewrite Hc].
Qed.

Lemma consistent_reachable s s' :
  consistent s -> rtc step s s' -> consistent s'.
Proof. intros Hs Hsteps. induction Hsteps; eauto using consistent_step. Qed.

(** ** Block processing: it returns *)

Section ProcessReturns.

(** The library filters in place: as many samples come out as go in. *)
Hypothesis lib_process_length :
  forall p st samples,
    length (snd (lib_process p st samples)) = length samples.

Lemma at_index_fmap {A B} (f : A -> B) (l : list A) (i : Z) :
  at_index (f <$> l) i = f <$> at_index l i.
Proof.
  unfold at_index. destruct (i <? 0); [done|apply list_lookup_fmap].
Qed.

Lemma at_index_lt {A} (l : list A) (i : Z) :
  0 <= i < Z.of_nat (length l) -> is_Some (at_index l i).
Proof.
  intros Hi. unfold at_index. destruct (Z.ltb_spec i 0); [lia|].
  apply lookup_lt_is_Some_2. lia.
Qed.

Lemma process_channel_returns id numSamples l bank buffer k :
  0 <= l < Z.of_nat (length (filters bank)) ->
  at_index (bufferShape buffer) (getGlobalChannelIndex id l) = Some k ->
  (numSamples <= k)%nat ->
  exists bank' buffer',
    process_channel id numSamples l (bank, buffer) = Some (bank', buffer')
    /\ length (filters bank') = length (filters bank)
    /\ bufferShape buffer' = bufferShape buffer.
Proof.
  intros Hl Hk Hn. unfold process_channel.
  unfold bufferShape in Hk. rewrite at_index_fmap in Hk.
  destruct (at_index buffer (getGlobalChannelIndex id l)) as [samples|] eqn:Hs;
    [|done].
  injection Hk as <-.
  destruct (at_index_lt (filters bank) l Hl) as [f ->].
  destruct (Nat.leb_spec numSamples (length samples)) as [_|]; [|lia].
  unfold processFilter.
  pose proof (lib_process_length (f_params f) (f_state f)
                (take numSamples samples)) as Hout.
  destruct (lib_process _ _ _) as [st out]; simpl in Hout.
  eexists _, _. split; [reflexivity|]. simpl.
  split; [apply length_insert|].
  unfold bufferShape. rewrite list_fmap_insert. apply list_insert_id.
  rewrite list_lookup_fmap.
  unfold at_index in Hs.
  destruct (getGlobalChannelIndex id l <? 0); [done|]. rewrite Hs. simpl.
  rewrite length_app, Hout, length_take, length_drop. f_equal. lia.
Qed.

Lemma process_channels_returns id numSamples (chs : list Z) :
  forall bank buffer,
    (forall l, l ∈ chs ->
       0 <= l < Z.of_nat (length (filters bank))
       /\ exists k,
            at_index (bufferShape buffer) (getGlobalChannelIndex id l) = Some k
            /\ (numSamples <= k)%nat) ->
    exists bank' buffer',
      for_each chs (process_channel id numSamples) (bank, buffer)
        = Some (bank', buffer')
      /\ length (filters bank') = length (filters bank)
      /\ bufferShape buffer' = bufferShape buffer.
Proof.
  induction chs as [|l rest IH]; intros bank buffer Hready; cbn [for_each].
  - by exists bank, buffer.
  - destruct (Hready l) as (Hl & k & Hk & Hn); [by left|].
    destruct (process_channel_returns id numSamples l bank buffer k Hl Hk Hn)
      as (bank1 & buffer1 & -> & Hlen1 & Hshape1).
    destruct (IH bank1 buffer1) as (bank' & buffer' & -> & Hlen & Hshape).
    { intros l' Hl'. rewrite Hlen1, Hshape1. apply Hready. by right. }
    exists bank', buffer'. split; [done|]. split; congruence.
Qed.

Lemma process_stream_returns st banks buffer :
  streamReady (bankSizes banks) (bufferShape buffer) st ->
  exists banks' buffer',
    process_stream st (banks, buffer) = Some (banks', buffer')
    /\ bankSizes banks' = bankSizes banks
    /\ bufferShape buffer' = bufferShape buffer.
Proof.
  intros Hready. unfold process_stream.
  destruct (enable_stream st) eqn:Hon; [|by exists banks, buffer].
  destruct (Hready Hon) as (size & Hsize & Hchs).
  unfold bankSizes in Hsize. rewrite lookup_fmap in Hsize.
  destruct (banks !! streamId st) as [bank|] eqn:Hbank; simpl in Hsize;
    [|done].
  injection Hsize as <-.
  destruct (process_channels_returns (streamId st)
              (getNumSamplesInBlock (streamId st)) (Channels st) bank buffer Hchs)
    as (bank' & buffer' & -> & Hlen & Hshape).
  exists (<[streamId st := bank']> banks), buffer'.
  split; [done|]. split; [|done].
  unfold bankSizes. rewrite fmap_insert, Hlen. apply insert_id.
  by rewrite lookup_fmap, Hbank.
Qed.

Lemma process_streams_returns (streams : list DataStream) :
  forall banks buffer,
    Forall (streamReady (bankSizes banks) (bufferShape buffer)) streams ->
    exists banks' buffer',
      for_each streams process_stream (banks, buffer) = Some (banks', buffer')
      /\ bankSizes banks' = bankSizes banks
      /\ bufferShape buffer' = bufferShape buffer.
Proof.
  induction streams as [|st rest IH]; intros banks buffer Hready;
    cbn [for_each].
  - by exists banks, buffer.
  - apply Forall_cons in Hready as [Hst Hrest].
    destruct (process_stream_returns st banks buffer Hst)
      as (banks1 & buffer1 & -> & Hsizes1 & Hshape1).
    destruct (IH banks1 buffer1) as (banks' & buffer' & -> & Hsizes & Hshape).
    { by rewrite Hsizes1, Hshape1. }
    exists banks', buffer'. split; [done|]. split; congruence.
Qed.

(** When every enabled stream has a bank with an instance for each channel
    of its mask, and the buffer holds the block of each of these channels,
    [process] returns; the streams, the size of the banks and the shape of
    the buffer are as before. *)
Lemma process_returns s buffer :
  Forall (streamReady (bankSizes (settings s)) (bufferShape buffer))
         (dataStreams s) ->
  exists s' buffer',
    process s buffer = Some (s', buffer')
    /\ dataStreams s' = dataStreams s
    /\ bankSizes (settings s') = bankSizes (settings s)
    /\ bufferShape buffer' = bufferShape buffer.
Proof.
  intros Hready. unfold process.
  destruct (process_streams_returns _ _ _ Hready)
    as (banks' & buffer' & -> & Hsizes & Hshape).
  eexists _, buffer'. split; [reflexivity|]. by simpl.
Qed.

End ProcessReturns.

(** ** More on the filter bank *)

(** X1. [setFilterParameters] dereferences [filters[channel]]: it fails exactly
    when the channel is not an index of the bank. *)
Theorem setFilterParameters_bounds
    (lowCut highCut : float) (channel : Z) (b : BandstopFilterSettings) :
  setFilterParameters lowCut highCut channel b = None
  <-> ~ (0 <= channel < Z.of_nat (length (filters b))).
Proof.
  unfold setFilterParameters, at_index.
  destruct (Z.ltb_spec channel 0) as [Hneg|Hpos]; [split; [lia|done]|].
  destruct (filters b !! Z.to_nat channel) as [f|] eqn:Hf.
  - apply lookup_lt_Some in Hf. split; [done|lia].
  - apply lookup_ge_None in Hf. split; [lia|done].
Qed.

(** X2. On an index of the bank, [setFilterParameters] gives that instance the
    parameters computed from the stored sample rate and the cutoffs, and
    leaves every other instance, the number of instances and the stored
    sample rate as they are. *)
Theorem setFilterParameters_one
    (lowCut highCut : float) (channel : Z) (b : BandstopFilterSettings) :
  0 <= channel < Z.of_nat (length (filters b)) ->
  exists b',
    setFilterParameters lowCut highCut channel b = Some b'
    /\ bankShape b' = bankShape b
    /\ f_params <$> at_index (filters b') channel
       = Some (mkParams (sampleRate b) 4 ((lowCut + highCut) / 2)
                 (highCut - lowCut))
    /\ forall other, other <> channel ->
         at_index (filters b') other = at_index (filters b) other.
Proof.
  intros Hch. unfold setFilterParameters.
  destruct (at_index_lt (filters b) channel Hch) as [f Hf]. rewrite Hf.
  eexists. split; [reflexivity|]. unfold bankShape; simpl.
  rewrite length_insert. split; [done|]. split.
  - unfold at_index in *. destruct (channel <? 0); [done|].
    rewrite list_lookup_insert_eq by lia. simpl.
    by rewrite filterParams_cutoffs.
  - intros other Hne. apply at_index_insert_ne; [lia|done].
Qed.

(** X3. [updateFilters] returns and hands every instance of the bank the
    sample rate the bank has stored, order 4, and the center and bandwidth
    of the two cutoffs: the bank it leaves has the same stored sample rate
    and, place for place, the instances of the bank with these parameters
    set, so as many as there were. *)
Theorem updateFilters_configures
    (lowCut highCut : float) (b : BandstopFilterSettings) :
  exists b',
    updateFilters lowCut highCut b = Some b'
    /\ sampleRate b' = sampleRate b
    /\ filters b' =
         setParams (mkParams (sampleRate b) 4 ((lowCut + highCut) / 2)
                      (highCut - lowCut))
           <$> filters b
    /\ length (filters b') = length (filters b)
    /\ Forall (fun f => f_params f =
                 mkParams (sampleRate b) 4 ((lowCut + highCut) / 2)
                   (highCut - lowCut))
              (filters b').
Proof.
  rewrite updateFilters_spec. eexists. split; [reflexivity|]. simpl.
  rewrite filterParams_cutoffs, length_fmap.
  split; [done|]. split; [done|]. split; [done|].
  apply Forall_fmap, Forall_forall. by intros f _.
Qed.

(** X4. The last [updateFilters] wins: after two calls the configuration of
    the bank is the one the second call alone leaves. *)
Theorem updateFilters_last_wins
    (lc1 hc1 lc2 hc2 : float) (b : BandstopFilterSettings) :
  exists b1 b12 b2,
    updateFilters lc1 hc1 b = Some b1
    /\ updateFilters lc2 hc2 b1 = Some b12
    /\ updateFilters lc2 hc2 b = Some b2
    /\ bankConfiguration b12 = bankConfiguration b2.
Proof.
  rewrite !updateFilters_spec. eexists _, _, _.
  split; [reflexivity|]. rewrite updateFilters_spec.
  split; [reflexivity|]. split; [reflexivity|].
  unfold bankConfiguration, configurations. simpl. f_equal.
  rewrite <- !list_fmap_compose. by apply list_fmap_ext.
Qed.

(** X5. [createFilters] throws the instances of the bank away: what it leaves
    does not depend on the bank it is called on, down to the state of
    every instance. *)
Theorem createFilters_forgets
    (n : Z) (sr lowCut highCut : float) (b1 b2 : BandstopFilterSettings) :
  createFilters n sr lowCut highCut b1 = createFilters n sr lowCut highCut b2.
Proof. by rewrite !createFilters_spec. Qed.

(** X6. Retuning a bank that was just built gives the configuration of a bank
    built with the new cutoffs. *)
Theorem createFilters_then_updateFilters
    (n : Z) (sr lc hc lc' hc' : float) (b : BandstopFilterSettings) :
  exists b1 b2 b3,
    createFilters n sr lc hc b = Some b1
    /\ updateFilters lc' hc' b1 = Some b2
    /\ createFilters n sr lc' hc' b = Some b3
    /\ bankConfiguration b2 = bankConfiguration b3.
Proof.
  rewrite !createFilters_spec. eexists _, _, _.
  split; [reflexivity|]. rewrite updateFilters_spec.
  split; [reflexivity|]. split; [reflexivity|].
  unfold bankConfiguration, configurations. simpl.
  by rewrite !fmap_replicate.
Qed.

(** ** More on the cutoff edits *)

Lemma updateStream_topology id f streams :
  (forall st, streamTopology (f st) = streamTopology st) ->
  streamTopology <$> updateStream id f streams = streamTopology <$> streams.
Proof.
  intros Hf. induction streams as [|st0 rest IH]; [done|].
  cbn [updateStream].
  destruct (N.eqb (streamId st0) id); rewrite !fmap_cons;
    [by rewrite Hf|by rewrite IH].
Qed.

Lemma restoreField_topology field st :
  streamTopology (restoreField field st) = streamTopology st.
Proof. by destruct field. Qed.

Lemma retune_shape s id lowCut highCut s' :
  retune s id lowCut highCut = Some s' ->
  dataStreams s' = dataStreams s
  /\ forall id', bankShape <$> settings s' !! id'
                = bankShape <$> settings s !! id'.
Proof.
  intros Hrun. apply retune_Some in Hrun as (b & b' & Hb & Hb' & ->).
  simpl. split; [done|]. intros id'.
  rewrite updateFilters_spec in Hb'. injection Hb' as <-.
  destruct (decide (id = id')) as [->|Hne].
  - rewrite lookup_insert_eq, Hb. simpl. unfold bankShape; simpl.
    by rewrite length_fmap.
  - by rewrite lookup_insert_ne.
Qed.

(** X7. The handler never touches the topology: whatever the parameter and
    whether the edit is accepted or rejected, every stream keeps its
    identifier, channel count, sample rate, enabled flag and mask, and
    every bank its stored sample rate and its number of instances. *)
Theorem parameterValueChanged_keeps_topology
    (s s' : BandstopFilter) (param : Param) :
  parameterValueChanged s param = Some s' ->
  streamTopology <$> dataStreams s' = streamTopology <$> dataStreams s
  /\ forall id, bankShape <$> settings s' !! id
               = bankShape <$> settings s !! id.
Proof.
  intros Hrun. destruct (editedField param) as [field|] eqn:Hf.
  - destruct (getDataStream s (paramStreamId param)) as [st|] eqn:Hst.
    + rewrite (parameterValueChanged_cutoff s param field st Hf Hst) in Hrun.
      destruct (violatesOrdering field st).
      * injection Hrun as <-. simpl. split; [|done].
        apply updateStream_topology. intros st0. apply restoreField_topology.
      * apply retune_shape in Hrun as [-> Hshape]. done.
    + exfalso. unfold parameterValueChanged in Hrun. rewrite Hst in Hrun.
      destruct field.
      * by rewrite (editedField_LowCut _ Hf) in Hrun.
      * destruct (editedField_HighCut _ Hf) as [Hlow Hhigh].
        by rewrite Hlow, Hhigh in Hrun.
  - rewrite (parameterValueChanged_other s param Hf) in Hrun.
    by injection Hrun as <-.
Qed.

(** X8. The order the handler asks for is strict: an edit that makes the two
    cutoffs equal is rejected, whichever of the two was edited. *)
Theorem equal_cutoffs_rejected
    (s : BandstopFilter) (param : Param) (field : CutoffField)
    (st : DataStream) :
  editedField param = Some field ->
  getDataStream s (paramStreamId param) = Some st ->
  PrimFloat.eqb (currentValue (low_cut st)) (currentValue (high_cut st)) = true ->
  exists s',
    parameterValueChanged s param = Some s'
    /\ settings s' = settings s
    /\ bankCalls s' = bankCalls s
    /\ getDataStream s' (paramStreamId param) = Some (restoreField field st).
Proof.
  intros Hf Hst Heq.
  rewrite (parameterValueChanged_cutoff s param field st Hf Hst).
  destruct (Binary64.eqb_leb _ _ Heq) as [Hle Hge].
  assert (Hv : violatesOrdering field st = true).
  { destruct field; simpl; [exact Hge|]. exact Hge. }
  rewrite Hv. eexists. split; [reflexivity|]. simpl. repeat split.
  unfold getDataStream; simpl.
  apply findStream_updateStream_eq; [apply restoreField_streamId|exact Hst].
Qed.

(** X9. The handling of a cutoff edit fails (a null pointer is dereferenced)
    in two cases only: the processor has no stream with the identifier of
    the parameter, or the edit is in order and that stream has no bank. A
    rejected edit needs no bank. *)
Theorem parameterValueChanged_fails
    (s : BandstopFilter) (param : Param) (field : CutoffField) :
  editedField param = Some field ->
  (parameterValueChanged s param = None
   <-> getDataStream s (paramStreamId param) = None
       \/ exists st,
            getDataStream s (paramStreamId param) = Some st
            /\ violatesOrdering field st = false
            /\ settings s !! paramStreamId param = None).
Proof.
  intros Hf. destruct (getDataStream s (paramStreamId param)) as [st|] eqn:Hst.
  - rewrite (parameterValueChanged_cutoff s param field st Hf Hst).
    destruct (violatesOrdering field st) eqn:Hv.
    + split; [done|]. intros [?|(st' & [= <-] & ? & _)]; congruence.
    + unfold retune.
      destruct (settings s !! paramStreamId param) as [b|] eqn:Hb.
      * rewrite updateFilters_spec. split; [done|].
        intros [?|(st' & _ & _ & ?)]; congruence.
      * split; [|done]. intros _. right. by exists st.
  - split; [by left|]. intros _. unfold parameterValueChanged. rewrite Hst.
    destruct field.
    + by rewrite (editedField_LowCut _ Hf).
    + by destruct (editedField_HighCut _ Hf) as [-> ->].
Qed.

(** X10. An accepted edit retunes the bank of the stream and nothing else:
    every instance of that bank gets the stored sample rate, order 4 and
    the center and bandwidth of the pair of the stream; the streams are as
    they were. *)
Theorem accepted_edit_configures
    (s : BandstopFilter) (param : Param) (field : CutoffField)
    (st : DataStream) (b : BandstopFilterSettings) :
  editedField param = Some field ->
  getDataStream s (paramStreamId param) = Some st ->
  violatesOrdering field st = false ->
  settings s !! paramStreamId param = Some b ->
  exists s' b',
    parameterValueChanged s param = Some s'
    /\ dataStreams s' = dataStreams s
    /\ settings s' !! paramStreamId param = Some b'
    /\ bankShape b' = bankShape b
    /\ Forall (fun f => f_params f =
                 mkParams (sampleRate b) 4
                   ((currentValue (low_cut st) + currentValue (high_cut st)) / 2)
                   (currentValue (high_cut st) - currentValue (low_cut st)))
              (filters b').
Proof.
  intros Hf Hst Hv Hb.
  rewrite (parameterValueChanged_cutoff s param field st Hf Hst), Hv.
  unfold retune. rewrite Hb, updateFilters_spec.
  eexists _, _. split; [reflexivity|]. simpl. split; [done|].
  rewrite lookup_insert_eq. split; [reflexivity|].
  unfold bankShape; simpl. rewrite length_fmap. split; [done|].
  apply Forall_fmap, Forall_forall. intros f _. simpl.
  apply filterParams_cutoffs.
Qed.

(** ** More on reconciliation *)

Lemma settings_update_lookup_None streams m id :
  id ∉ streamId <$> streams ->
  settings_update streams m !! id = None.
Proof.
  induction streams as [|st0 rest IH]; simpl; [done|].
  rewrite not_elem_of_cons. intros [Hne Hid].
  rewrite lookup_insert_ne by done. by apply IH.
Qed.

Lemma rebuilt_ext (streams : list DataStream) :
  forall m1 m2 : gmap N BandstopFilterSettings,
    (forall id, id ∉ streamId <$> streams -> m1 !! id = m2 !! id) ->
    foldl (fun m st => <[streamId st := rebuiltBank st]> m) m1 streams
    = foldl (fun m st => <[streamId st := rebuiltBank st]> m) m2 streams.
Proof.
  induction streams as [|st rest IH]; intros m1 m2 Hm; simpl.
  - apply map_eq. intros id. apply Hm. apply not_elem_of_nil.
  - apply IH. intros id Hid.
    destruct (decide (streamId st = id)) as [->|Hne].
    + by rewrite !lookup_insert_eq.
    + rewrite !lookup_insert_ne by done. apply Hm.
      rewrite fmap_cons, not_elem_of_cons. split; [done|exact Hid].
Qed.

(** X11. A reconciliation pass is a rebuild, not a repair: the bank it
    leaves for a stream depends on the streams only, not on the banks
    there were. In particular a second pass leaves the banks of the
    first. *)
Theorem updateSettings_from_streams (s1 s2 : BandstopFilter) :
  dataStreams s1 = dataStreams s2 ->
  exists r1 r2,
    updateSettings s1 = Some r1
    /\ updateSettings s2 = Some r2
    /\ forall st, st ∈ dataStreams s1 ->
         settings r1 !! streamId st = settings r2 !! streamId st.
Proof.
  intros Hstreams. rewrite !updateSettings_spec. eexists _, _.
  split; [reflexivity|]. split; [reflexivity|]. simpl.
  intros st _. f_equal.
  rewrite Hstreams. apply rebuilt_ext. intros id Hid.
  by rewrite !settings_update_lookup_None.
Qed.

(** X12. After a reconciliation pass the bank of every stream fits the stream:
    it has the sample rate of the stream and one instance per channel
    (none for a channel count below 0), each configured for the cutoffs of
    the stream. *)
Theorem updateSettings_banks_fit (s : BandstopFilter) :
  NoDup (streamId <$> dataStreams s) ->
  exists s',
    updateSettings s = Some s'
    /\ forall st, st ∈ dataStreams s ->
         exists bank,
           settings s' !! streamId st = Some bank
           /\ sampleRate bank = streamSampleRate st
           /\ Z.of_nat (length (filters bank)) = Z.max (channelCount st) 0
           /\ Forall (fun f => f_params f =
                        mkParams (streamSampleRate st) 4
                          ((currentValue (low_cut st)
                            + currentValue (high_cut st)) / 2)
                          (currentValue (high_cut st)
                           - currentValue (low_cut st)))
                     (filters bank).
Proof.
  intros Hnd. rewrite updateSettings_spec. eexists. split; [reflexivity|].
  simpl. intros st Hin. exists (rebuiltBank st).
  split; [by apply rebuilt_lookup|]. unfold rebuiltBank; simpl.
  split; [done|]. rewrite length_replicate. split; [lia|].
  apply Forall_replicate. simpl. apply filterParams_cutoffs.
Qed.

Lemma lastConfigured_app id calls more :
  lastConfigured id (calls ++ more) =
    match lastConfigured id more with
    | Some cs => Some cs
    | None => lastConfigured id calls
    end.
Proof.
  induction calls as [|c rest IH]; simpl.
  - by destruct (lastConfigured id more).
  - rewrite IH. by destruct (lastConfigured id more).
Qed.

Lemma lastConfigured_rebuild_None id streams :
  id ∉ streamId <$> streams ->
  lastConfigured id (rebuildCall <$> streams) = None.
Proof.
  induction streams as [|st rest IH]; [done|].
  rewrite !fmap_cons, not_elem_of_cons. intros [Hne Hid].
  cbn [lastConfigured]. rewrite IH by done. simpl.
  destruct (N.eqb_spec (streamId st) id); [congruence|done].
Qed.

Lemma lastConfigured_rebuild streams st :
  NoDup (streamId <$> streams) ->
  st ∈ streams ->
  lastConfigured (streamId st) (rebuildCall <$> streams) = Some (cutoffs st).
Proof.
  induction streams as [|st0 rest IH]; intros Hnd Hin;
    [by apply elem_of_nil in Hin|].
  rewrite fmap_cons in Hnd. apply NoDup_cons in Hnd as [Hfresh Hnd].
  rewrite fmap_cons. cbn [lastConfigured].
  apply elem_of_cons in Hin as [->|Hin].
  - rewrite lastConfigured_rebuild_None by done. simpl.
    by rewrite N.eqb_refl.
  - by rewrite IH.
Qed.

(** X13. After a reconciliation pass the pair every bank was last configured
    with is the pair of its stream. *)
Theorem updateSettings_configures_with_stream_cutoffs (s : BandstopFilter) :
  NoDup (streamId <$> dataStreams s) ->
  exists s',
    updateSettings s = Some s'
    /\ forall st, st ∈ dataStreams s ->
         lastConfigured (streamId st) (bankCalls s') = Some (cutoffs st).
Proof.
  intros Hnd. rewrite updateSettings_spec. eexists. split; [reflexivity|].
  simpl. intros st Hin.
  by rewrite lastConfigured_app, lastConfigured_rebuild.
Qed.

(** ** More on block processing *)

Lemma processFilter_params f samples :
  f_params (processFilter f samples).1 = f_params f.
Proof.
  unfold processFilter. by destruct (lib_process _ _ _).
Qed.

Lemma at_index_insert_eq {A} (l : list A) (i : Z) (x : A) :
  is_Some (at_index l i) ->
  at_index (<[Z.to_nat i := x]> l) i = Some x.
Proof.
  unfold at_index. destruct (i <? 0); [by intros [? ?]|].
  intros [y Hy]. apply list_lookup_insert_eq. by eapply lookup_lt_Some.
Qed.

(** One step of the loop over the mask, spelled out. *)
Lemma process_channel_Some id numSamples l bank buffer bank' buffer' :
  process_channel id numSamples l (bank, buffer) = Some (bank', buffer') ->
  exists f samples,
    at_index (filters bank) l = Some f
    /\ at_index buffer (getGlobalChannelIndex id l) = Some samples
    /\ (numSamples <= length samples)%nat
    /\ bank' = mkSettings (sampleRate bank)
                 (<[Z.to_nat l := (processFilter f (take numSamples samples)).1]>
                    (filters bank))
    /\ buffer' = <[Z.to_nat (getGlobalChannelIndex id l) :=
                     (processFilter f (take numSamples samples)).2
                       ++ drop numSamples samples]> buffer.
Proof.
  unfold process_channel.
  destruct (at_index buffer (getGlobalChannelIndex id l)) as [samples|];
    [|done].
  destruct (at_index (filters bank) l) as [f|]; [|done].
  destruct (Nat.leb_spec numSamples (length samples)); [|done].
  destruct (processFilter f (take numSamples samples)) as [f' out] eqn:Hp.
  intros [= <- <-]. exists f, samples. by rewrite Hp.
Qed.

Lemma process_channel_configuration id numSamples l bank buffer bank' buffer' :
  process_channel id numSamples l (bank, buffer) = Some (bank', buffer') ->
  bankConfiguration bank' = bankConfiguration bank
  /\ length buffer' = length buffer.
Proof.
  intros (f & samples & Hf & _ & _ & -> & ->)%process_channel_Some.
  rewrite length_insert. split; [|done].
  unfold bankConfiguration, configurations; simpl. f_equal.
  rewrite list_fmap_insert. apply list_insert_id.
  rewrite list_lookup_fmap, processFilter_params.
  unfold at_index in Hf. destruct (l <? 0); [done|]. by rewrite Hf.
Qed.

Lemma process_channels_configuration id numSamples (chs : list Z) :
  forall bank buffer bank' buffer',
    for_each chs (process_channel id numSamples) (bank, buffer)
      = Some (bank', buffer') ->
    bankConfiguration bank' = bankConfiguration bank
    /\ length buffer' = length buffer.
Proof.
  induction chs as [|l rest IH]; intros bank buffer bank' buffer';
    cbn [for_each].
  - by intros [= <- <-].
  - destruct (process_channel id numSamples l (bank, buffer))
      as [[bank1 buffer1]|] eqn:Hstep; [|done].
    intros Hrun. destruct (IH _ _ _ _ Hrun) as [-> ->].
    by eapply process_channel_configuration.
Qed.

Lemma process_stream_configuration st banks buffer banks' buffer' :
  process_stream st (banks, buffer) = Some (banks', buffer') ->
  (forall id, bankConfiguration <$> banks' !! id
              = bankConfiguration <$> banks !! id)
  /\ length buffer' = length buffer.
Proof.
  unfold process_stream.
  destruct (enable_stream st); [|by intros [= <- <-]].
  destruct (banks !! streamId st) as [bank|] eqn:Hbank.
  - destruct (for_each _ _ _) as [[bank' buffer1]|] eqn:Hloop; [|done].
    intros [= <- <-].
    destruct (process_channels_configuration _ _ _ _ _ _ _ Hloop) as [Hc Hl].
    split; [|done]. intros id.
    destruct (decide (streamId st = id)) as [<-|Hne].
    + rewrite lookup_insert_eq, Hbank. simpl. by rewrite Hc.
    + by rewrite lookup_insert_ne.
  - destruct (Channels st); [by intros [= <- <-]|done].
Qed.

Lemma process_streams_configuration (streams : list DataStream) :
  forall banks buffer banks' buffer',
    for_each streams process_stream (banks, buffer) = Some (banks', buffer') ->
    (forall id, bankConfiguration <$> banks' !! id
                = bankConfiguration <$> banks !! id)
    /\ length buffer' = length buffer.
Proof.
  induction streams as [|st rest IH]; intros banks buffer banks' buffer';
    cbn [for_each].
  - by intros [= <- <-].
  - destruct (process_stream st (banks, buffer))
      as [[banks1 buffer1]|] eqn:Hstep; [|done].
    intros Hrun. destruct (IH _ _ _ _ Hrun) as [Hc ->].
    destruct (process_stream_configuration _ _ _ _ _ Hstep) as [Hc1 ->].
    split; [|done]. intros id. by rewrite Hc, Hc1.
Qed.

(** X14. A block changes no configuration: after [process] every bank has the
    stored sample rate and the instance parameters it had, the streams
    and the number of buffer channels are the same. *)
Theorem process_keeps_configuration
    (s s' : BandstopFilter) (buffer buffer' : AudioBuffer) :
  process s buffer = Some (s', buffer') ->
  dataStreams s' = dataStreams s
  /\ length buffer' = length buffer
  /\ forall id, bankConfiguration <$> settings s' !! id
               = bankConfiguration <$> settings s !! id.
Proof.
  unfold process.
  destruct (for_each _ _ _) as [[banks buffer1]|] eqn:Hloop; [|done].
  intros [= <- <-]. simpl.
  destruct (process_streams_configuration _ _ _ _ _ Hloop) as [Hc Hl].
  done.
Qed.

(** *** The instances a block leaves alone *)

Lemma process_channel_instance_frame id numSamples l' bank buffer bank' buffer' l :
  process_channel id numSamples l' (bank, buffer) = Some (bank', buffer') ->
  l' <> l ->
  at_index (filters bank') l = at_index (filters bank) l.
Proof.
  intros (f & samples & Hf & _ & _ & -> & _)%process_channel_Some Hne.
  simpl. apply at_index_insert_ne; [by eapply at_index_Some_nonneg|done].
Qed.

Lemma process_channels_instance_frame id numSamples l (chs : list Z) :
  forall bank buffer bank' buffer',
    for_each chs (process_channel id numSamples) (bank, buffer)
      = Some (bank', buffer') ->
    l ∉ chs ->
    at_index (filters bank') l = at_index (filters bank) l.
Proof.
  induction chs as [|l' rest IH]; intros bank buffer bank' buffer';
    cbn [for_each].
  - by intros [= <- <-].
  - destruct (process_channel id numSamples l' (bank, buffer))
      as [[bank1 buffer1]|] eqn:Hstep; [|done].
    intros Hrun [Hne Hrest]%not_elem_of_cons.
    rewrite (IH _ _ _ _ Hrun Hrest).
    eapply process_channel_instance_frame; [exact Hstep|done].
Qed.

Lemma process_stream_instance_frame st banks buffer banks' buffer' id l :
  process_stream st (banks, buffer) = Some (banks', buffer') ->
  streamId st <> id \/ enable_stream st = false \/ l ∉ Channels st ->
  instanceAt banks' id l = instanceAt banks id l.
Proof.
  unfold process_stream. intros Hrun Hwhy.
  destruct (enable_stream st) eqn:Hon; [|by injection Hrun as <- <-].
  destruct (banks !! streamId st) as [bank|] eqn:Hbank.
  - destruct (for_each _ _ _) as [[bank' buffer1]|] eqn:Hloop; [|done].
    injection Hrun as <- <-. unfold instanceAt.
    destruct (decide (streamId st = id)) as [<-|Hne].
    + rewrite lookup_insert_eq, Hbank.
      destruct Hwhy as [?|[?|Hout]]; [done..|].
      by eapply process_channels_instance_frame.
    + by rewrite lookup_insert_ne.
  - destruct (Channels st); [by injection Hrun as <- <-|done].
Qed.

Lemma process_streams_instance_frame id l (streams : list DataStream) :
  forall banks buffer banks' buffer',
    for_each streams process_stream (banks, buffer) = Some (banks', buffer') ->
    (forall st, st ∈ streams ->
       streamId st <> id \/ enable_stream st = false \/ l ∉ Channels st) ->
    instanceAt banks' id l = instanceAt banks id l.
Proof.
  induction streams as [|st rest IH]; intros banks buffer banks' buffer';
    cbn [for_each].
  - by intros [= <- <-].
  - destruct (process_stream st (banks, buffer))
      as [[banks1 buffer1]|] eqn:Hstep; [|done].
    intros Hrun Hwhy.
    rewrite (IH _ _ _ _ Hrun) by (intros ? ?; apply Hwhy; by right).
    eapply process_stream_instance_frame; [exact Hstep|]. apply Hwhy. by left.
Qed.

(** X15. A block advances only the instances it runs: the instance of a
    channel that is not in the mask of its stream, and every instance of a
    stream that is not enabled, is after [process] what it was, state
    included. *)
Theorem process_leaves_other_instances
    (s s' : BandstopFilter) (buffer buffer' : AudioBuffer)
    (A : DataStream) (l : Z) :
  NoDup (streamId <$> dataStreams s) ->
  A ∈ dataStreams s ->
  enable_stream A = false \/ l ∉ Channels A ->
  process s buffer = Some (s', buffer') ->
  instanceAt (settings s') (streamId A) l
  = instanceAt (settings s) (streamId A) l.
Proof.
  intros Hnd HA Hwhy. unfold process.
  destruct (for_each _ _ _) as [[banks buffer1]|] eqn:Hloop; [|done].
  intros [= <- <-]. simpl.
  eapply process_streams_instance_frame; [exact Hloop|].
  intros B HB. destruct (decide (streamId B = streamId A)) as [Heq|Hne];
    [|by left].
  right. by rewrite (fmap_NoDup_inj streamId (dataStreams s) B A Hnd HB HA Heq).
Qed.

(** *** What a block does to a selected channel *)

Lemma process_channel_effect id numSamples l bank buffer bank' buffer' f samples :
  process_channel id numSamples l (bank, buffer) = Some (bank', buffer') ->
  at_index (filters bank) l = Some f ->
  at_index buffer (getGlobalChannelIndex id l) = Some samples ->
  at_index buffer' (getGlobalChannelIndex id l)
    = Some ((processFilter f (take numSamples samples)).2
              ++ drop numSamples samples)
  /\ at_index (filters bank') l
     = Some (processFilter f (take numSamples samples)).1.
Proof.
  intros (f0 & samples0 & Hf0 & Hs0 & _ & -> & ->)%process_channel_Some Hf Hs.
  rewrite Hf in Hf0. injection Hf0 as <-.
  rewrite Hs in Hs0. injection Hs0 as <-. simpl.
  split; apply at_index_insert_eq; eauto.
Qed.

Lemma process_channels_effect id numSamples l f samples (chs : list Z) :
  forall bank buffer bank' buffer',
    for_each chs (process_channel id numSamples) (bank, buffer)
      = Some (bank', buffer') ->
    NoDup chs ->
    l ∈ chs ->
    (forall l', l' ∈ chs -> l' <> l ->
       getGlobalChannelIndex id l' <> getGlobalChannelIndex id l) ->
    at_index (filters bank) l = Some f ->
    at_index buffer (getGlobalChannelIndex id l) = Some samples ->
    at_index buffer' (getGlobalChannelIndex id l)
      = Some ((processFilter f (take numSamples samples)).2
                ++ drop numSamples samples)
    /\ at_index (filters bank') l
       = Some (processFilter f (take numSamples samples)).1.
Proof.
  induction chs as [|l0 rest IH]; intros bank buffer bank' buffer';
    cbn [for_each].
  - intros _ _ Hin. by apply elem_of_nil in Hin.
  - destruct (process_channel id numSamples l0 (bank, buffer))
      as [[bank1 buffer1]|] eqn:Hstep; [|done].
    intros Hrun [Hfresh Hnd]%NoDup_cons Hin Hinj Hf Hs.
    destruct (decide (l0 = l)) as [->|Hne].
    + destruct (process_channel_effect _ _ _ _ _ _ _ _ _ Hstep Hf Hs)
        as [Hbuf Hinst].
      rewrite <- Hbuf, <- Hinst. split.
      * eapply process_channels_frame; [exact Hrun|].
        intros l' Hl'. apply Hinj; [by right|]. by intros ->.
      * by eapply process_channels_instance_frame.
    + apply elem_of_cons in Hin as [->|Hin]; [done|].
      apply (IH _ _ _ _ Hrun Hnd Hin).
      * intros l' Hl'. apply Hinj. by right.
      * rewrite <- Hf. by eapply process_channel_instance_frame.
      * rewrite <- Hs. eapply process_channel_frame; [exact Hstep|].
        apply Hinj; [by left|done].
Qed.

Lemma process_stream_effect st banks buffer banks' buffer' l f samples :
  process_stream st (banks, buffer) = Some (banks', buffer') ->
  enable_stream st = true ->
  NoDup (Channels st) ->
  l ∈ Channels st ->
  (forall l', l' ∈ Channels st -> l' <> l ->
     getGlobalChannelIndex (streamId st) l'
     <> getGlobalChannelIndex (streamId st) l) ->
  instanceAt banks (streamId st) l = Some f ->
  at_index buffer (getGlobalChannelIndex (streamId st) l) = Some samples ->
  at_index buffer' (getGlobalChannelIndex (streamId st) l)
    = Some ((processFilter f
               (take (getNumSamplesInBlock (streamId st)) samples)).2
              ++ drop (getNumSamplesInBlock (streamId st)) samples)
  /\ instanceAt banks' (streamId st) l
     = Some (processFilter f
               (take (getNumSamplesInBlock (streamId st)) samples)).1.
Proof.
  unfold process_stream, instanceAt. intros Hrun Hon Hnd Hin Hinj Hf Hs.
  rewrite Hon in Hrun.
  destruct (banks !! streamId st) as [bank|] eqn:Hbank; [|done].
  destruct (for_each _ _ _) as [[bank' buffer1]|] eqn:Hloop; [|done].
  injection Hrun as <- <-. rewrite lookup_insert_eq.
  by eapply process_channels_effect.
Qed.

Lemma process_streams_effect A l f samples (streams : list DataStream) :
  forall banks buffer banks' buffer',
    for_each streams process_stream (banks, buffer) = Some (banks', buffer') ->
    NoDup (streamId <$> streams) ->
    A ∈ streams ->
    enable_stream A = true ->
    NoDup (Channels A) ->
    l ∈ Channels A ->
    (forall l', l' ∈ Channels A -> l' <> l ->
       getGlobalChannelIndex (streamId A) l'
       <> getGlobalChannelIndex (streamId A) l) ->
    (forall B, B ∈ streams -> streamId B <> streamId A ->
       enable_stream B = true ->
       forall l', l' ∈ Channels B ->
         getGlobalChannelIndex (streamId B) l'
         <> getGlobalChannelIndex (streamId A) l) ->
    instanceAt banks (streamId A) l = Some f ->
    at_index buffer (getGlobalChannelIndex (streamId A) l) = Some samples ->
    at_index buffer' (getGlobalChannelIndex (streamId A) l)
      = Some ((processFilter f
                 (take (getNumSamplesInBlock (streamId A)) samples)).2
                ++ drop (getNumSamplesInBlock (streamId A)) samples)
    /\ instanceAt banks' (streamId A) l
       = Some (processFilter f
                 (take (getNumSamplesInBlock (streamId A)) samples)).1.
Proof.
  induction streams as [|B rest IH]; intros banks buffer banks' buffer';
    cbn [for_each].
  - intros _ _ Hin. by apply elem_of_nil in Hin.
  - destruct (process_stream B (banks, buffer))
      as [[banks1 buffer1]|] eqn:Hstep; [|done].
    rewrite fmap_cons.
    intros Hrun [Hfresh Hnd]%NoDup_cons HA Hon HndA Hl Hinj Hother Hf Hs.
    assert (Hrest : forall C, C ∈ rest -> streamId C <> streamId B).
    { intros C HC Heq. apply Hfresh. rewrite <- Heq.
      by apply list_elem_of_fmap_2. }
    apply elem_of_cons in HA as [->|HA].
    + destruct (process_stream_effect _ _ _ _ _ _ _ _ Hstep Hon HndA Hl Hinj Hf Hs)
        as [Hbuf Hinst].
      rewrite <- Hbuf, <- Hinst. split.
      * eapply process_streams_frame; [exact Hrun|].
        intros C HC HonC l' Hl'. apply Hother; [by right|by apply Hrest|done..].
      * eapply process_streams_instance_frame; [exact Hrun|].
        intros C HC. left. by apply Hrest.
    + assert (Hne : streamId B <> streamId A).
      { intros Heq. by apply (Hrest A HA). }
      apply (IH _ _ _ _ Hrun Hnd HA Hon HndA Hl Hinj).
      * intros C HC. apply Hother. by right.
      * rewrite <- Hf. eapply process_stream_instance_frame; [exact Hstep|].
        by left.
      * rewrite <- Hs. eapply process_stream_frame; [exact Hstep|].
        intros HonB l' Hl'. apply Hother; [by left|done..].
Qed.

(** X16. What a block does to a selected channel of an enabled stream: the
    first [numSamples] samples of its buffer channel are what the
    instance of the channel makes of them, the samples behind are kept,
    and the instance is left in the state this one run puts it in (the
    streams lie apart in the buffer, and the mask names the channel
    once). *)
Theorem process_selected_channel
    (s s' : BandstopFilter) (buffer buffer' : AudioBuffer)
    (A : DataStream) (l : Z) (f : Filter) (samples : list float) :
  NoDup (streamId <$> dataStreams s) ->
  channelsDisjoint (dataStreams s) ->
  masksInRange (dataStreams s) ->
  A ∈ dataStreams s ->
  enable_stream A = true ->
  NoDup (Channels A) ->
  l ∈ Channels A ->
  instanceAt (settings s) (streamId A) l = Some f ->
  at_index buffer (getGlobalChannelIndex (streamId A) l) = Some samples ->
  process s buffer = Some (s', buffer') ->
  at_index buffer' (getGlobalChannelIndex (streamId A) l)
    = Some ((processFilter f
               (take (getNumSamplesInBlock (streamId A)) samples)).2
              ++ drop (getNumSamplesInBlock (streamId A)) samples)
  /\ instanceAt (settings s') (streamId A) l
     = Some (processFilter f
               (take (getNumSamplesInBlock (streamId A)) samples)).1.
Proof.
  intros Hnd Hdis Hmask HA Hon HndA Hl Hf Hs. unfold process.
  destruct (for_each _ _ _) as [[banks buffer1]|] eqn:Hloop; [|done].
  intros [= <- <-]. simpl.
  assert (Hrange : forall B l', B ∈ dataStreams s -> l' ∈ Channels B ->
                     0 <= l' < channelCount B).
  { intros B l' HB Hl'. unfold masksInRange in Hmask.
    rewrite Forall_forall in Hmask. specialize (Hmask B HB).
    rewrite Forall_forall in Hmask. by apply Hmask. }
  eapply process_streams_effect; try done.
  - intros l' Hl' Hne Heq. apply Hne.
    apply (fmap_NoDup_inj (getGlobalChannelIndex (streamId A))
             (seqZ 0 (channelCount A))); try done.
    + apply (bind_NoDup_each streamChannels (dataStreams s) A Hdis HA).
    + apply elem_of_seqZ. specialize (Hrange A l' HA Hl'). lia.
    + apply elem_of_seqZ. specialize (Hrange A l HA Hl). lia.
  - intros B HB Hne _ l' Hl'.
    apply (selected_channel_elsewhere (dataStreams s) A B); try done.
    + by intros ->.
    + apply streamChannels_elem. by apply Hrange.
Qed.

(** ** When a block can be processed *)

Section InPlace.

(** The library filters in place: as many samples come out as go in. *)
Hypothesis lib_process_in_place :
  forall p st samples,
    length (snd (lib_process p st samples)) = length samples.

Lemma process_channel_needs id numSamples l bank buffer bank' buffer' :
  process_channel id numSamples l (bank, buffer) = Some (bank', buffer') ->
  (0 <= l < Z.of_nat (length (filters bank))
   /\ exists k,
        at_index (bufferShape buffer) (getGlobalChannelIndex id l) = Some k
        /\ (numSamples <= k)%nat)
  /\ length (filters bank') = length (filters bank)
  /\ bufferShape buffer' = bufferShape buffer.
Proof.
  intros Hrun.
  pose proof Hrun as (f & samples & Hf & Hs & Hn & _ & _)%process_channel_Some.
  assert (Hl : 0 <= l < Z.of_nat (length (filters bank))).
  { pose proof (at_index_Some_nonneg _ _ _ Hf). unfold at_index in Hf.
    destruct (l <? 0); [done|]. apply lookup_lt_Some in Hf. lia. }
  assert (Hk : at_index (bufferShape buffer) (getGlobalChannelIndex id l)
               = Some (length samples)).
  { unfold bufferShape. by rewrite at_index_fmap, Hs. }
  split; [split; [exact Hl|by exists (length samples)]|].
  destruct (process_channel_returns lib_process_in_place id numSamples l bank
              buffer (length samples) Hl Hk Hn)
    as (bank2 & buffer2 & Hrun2 & Hlen & Hshape).
  rewrite Hrun in Hrun2. by injection Hrun2 as <- <-.
Qed.

Lemma process_channels_needs id numSamples (chs : list Z) :
  forall bank buffer bank' buffer',
    for_each chs (process_channel id numSamples) (bank, buffer)
      = Some (bank', buffer') ->
    (forall l, l ∈ chs ->
       0 <= l < Z.of_nat (length (filters bank))
       /\ exists k,
            at_index (bufferShape buffer) (getGlobalChannelIndex id l) = Some k
            /\ (numSamples <= k)%nat)
    /\ length (filters bank') = length (filters bank)
    /\ bufferShape buffer' = bufferShape buffer.
Proof.
  induction chs as [|l0 rest IH]; intros bank buffer bank' buffer';
    cbn [for_each].
  - intros [= <- <-]. split; [|done]. by intros l ?%elem_of_nil.
  - destruct (process_channel id numSamples l0 (bank, buffer))
      as [[bank1 buffer1]|] eqn:Hstep; [|done].
    intros Hrun.
    destruct (process_channel_needs _ _ _ _ _ _ _ Hstep) as (H0 & Hlen1 & Hsh1).
    destruct (IH _ _ _ _ Hrun) as (Hrest & Hlen & Hsh).
    split; [|split; congruence].
    intros l [->|Hin]%elem_of_cons; [exact H0|].
    rewrite <- Hlen1, <- Hsh1. by apply Hrest.
Qed.

Lemma process_stream_needs st banks buffer banks' buffer' :
  process_stream st (banks, buffer) = Some (banks', buffer') ->
  selectionReady (bankSizes banks) (bufferShape buffer) st
  /\ bankSizes banks' = bankSizes banks
  /\ bufferShape buffer' = bufferShape buffer.
Proof.
  unfold process_stream, selectionReady.
  destruct (enable_stream st); [|by intros [= <- <-]].
  destruct (banks !! streamId st) as [bank|] eqn:Hbank.
  - destruct (for_each _ _ _) as [[bank' buffer1]|] eqn:Hloop; [|done].
    intros [= <- <-].
    destruct (process_channels_needs _ _ _ _ _ _ _ Hloop) as (Hchs & Hlen & Hsh).
    split; [|split; [|done]].
    + intros _ l Hl. destruct (Hchs l Hl) as (Hrange & k & Hk & Hn).
      exists (length (filters bank)), k.
      unfold bankSizes. by rewrite lookup_fmap, Hbank.
    + unfold bankSizes. rewrite fmap_insert, Hlen. apply insert_id.
      by rewrite lookup_fmap, Hbank.
  - destruct (Channels st); [|done]. intros [= <- <-].
    split; [|done]. by intros _ l ?%elem_of_nil.
Qed.

Lemma process_streams_needs (streams : list DataStream) :
  forall banks buffer banks' buffer',
    for_each streams process_stream (banks, buffer) = Some (banks', buffer') ->
    Forall (selectionReady (bankSizes banks) (bufferShape buffer)) streams
    /\ bankSizes banks' = bankSizes banks
    /\ bufferShape buffer' = bufferShape buffer.
Proof.
  induction streams as [|st rest IH]; intros banks buffer banks' buffer';
    cbn [for_each].
  - by intros [= <- <-].
  - destruct (process_stream st (banks, buffer))
      as [[banks1 buffer1]|] eqn:Hstep; [|done].
    intros Hrun.
    destruct (process_stream_needs _ _ _ _ _ Hstep) as (Hst & Hsz1 & Hsh1).
    destruct (IH _ _ _ _ Hrun) as (Hrest & Hsz & Hsh).
    rewrite Hsz1, Hsh1 in Hrest. split; [by constructor|]. split; congruence.
Qed.

Lemma process_stream_returns_selection st banks buffer :
  selectionReady (bankSizes banks) (bufferShape buffer) st ->
  exists banks' buffer',
    process_stream st (banks, buffer) = Some (banks', buffer')
    /\ bankSizes banks' = bankSizes banks
    /\ bufferShape buffer' = bufferShape buffer.
Proof.
  intros Hready.
  destruct (enable_stream st) eqn:Hon.
  - destruct (banks !! streamId st) as [bank|] eqn:Hbank.
    + apply (process_stream_returns lib_process_in_place). intros _.
      exists (length (filters bank)). unfold bankSizes.
      rewrite lookup_fmap, Hbank. split; [done|].
      intros l Hl. destruct (Hready Hon l Hl) as (size & k & Hsize & Hr & Hk & Hn).
      unfold bankSizes in Hsize. rewrite lookup_fmap, Hbank in Hsize.
      injection Hsize as <-. split; [done|]. by exists k.
    + unfold process_stream. rewrite Hon, Hbank.
      destruct (Channels st) as [|l rest] eqn:Hchs; [by exists banks, buffer|].
      exfalso. destruct (Hready Hon l) as (size & k & Hsize & _).
      { rewrite Hchs. by left. }
      unfold bankSizes in Hsize. by rewrite lookup_fmap, Hbank in Hsize.
  - unfold process_stream. rewrite Hon. by exists banks, buffer.
Qed.

Lemma process_streams_returns_selection (streams : list DataStream) :
  forall banks buffer,
    Forall (selectionReady (bankSizes banks) (bufferShape buffer)) streams ->
    is_Some (for_each streams process_stream (banks, buffer)).
Proof.
  induction streams as [|st rest IH]; intros banks buffer Hready;
    cbn [for_each]; [done|].
  apply Forall_cons in Hready as [Hst Hrest].
  destruct (process_stream_returns_selection st banks buffer Hst)
    as (banks1 & buffer1 & -> & Hsz & Hsh).
  apply IH. by rewrite Hsz, Hsh.
Qed.

Lemma process_returns_selection s buffer :
  Forall (selectionReady (bankSizes (settings s)) (bufferShape buffer))
         (dataStreams s) ->
  is_Some (process s buffer).
Proof.
  intros Hready. unfold process.
  destruct (process_streams_returns_selection _ _ _ Hready) as [[banks b] ->].
  done.
Qed.

(** X17. [process] returns exactly when every channel that the mask of an
    enabled stream selects has an instance in the bank of the stream and a
    buffer channel that holds the samples of the block; otherwise a null
    pointer is dereferenced or the buffer overrun. *)
Theorem process_defined_iff (s : BandstopFilter) (buffer : AudioBuffer) :
  is_Some (process s buffer)
  <-> Forall (selectionReady (bankSizes (settings s)) (bufferShape buffer))
             (dataStreams s).
Proof.
  split; [|apply process_returns_selection].
  intros [[s' buffer'] Hrun]. unfold process in Hrun.
  destruct (for_each _ _ _) as [[banks buffer1]|] eqn:Hloop; [|done].
  by destruct (process_streams_needs _ _ _ _ _ Hloop) as (Hready & _ & _).
Qed.

(** X18. A block keeps the shape of things: after [process] the buffer has the
    channels it had, each as long as it was, and every bank the number of
    instances it had. *)
Theorem process_keeps_shape
    (s s' : BandstopFilter) (buffer buffer' : AudioBuffer) :
  process s buffer = Some (s', buffer') ->
  bufferShape buffer' = bufferShape buffer
  /\ bankSizes (settings s') = bankSizes (settings s).
Proof.
  unfold process.
  destruct (for_each _ _ _) as [[banks buffer1]|] eqn:Hloop; [|done].
  intros [= <- <-]. simpl.
  by destruct (process_streams_needs _ _ _ _ _ Hloop) as (_ & Hsz & Hsh).
Qed.

(** X19. After a reconciliation pass the block can be processed: when the
    masks select channels of their streams and the buffer holds the block
    of every selected channel, [updateSettings] followed by [process]
    returns. *)
Theorem updateSettings_then_process
    (s : BandstopFilter) (buffer : AudioBuffer) :
  NoDup (streamId <$> dataStreams s) ->
  masksInRange (dataStreams s) ->
  (forall st l, st ∈ dataStreams s -> enable_stream st = true ->
     l ∈ Channels st ->
     exists samples,
       at_index buffer (getGlobalChannelIndex (streamId st) l) = Some samples
       /\ (getNumSamplesInBlock (streamId st) <= length samples)%nat) ->
  exists s1 s2 buffer',
    updateSettings s = Some s1
    /\ process s1 buffer = Some (s2, buffer').
Proof.
  intros Hnd Hmask Hbuf. rewrite updateSettings_spec.
  eexists. 
  match goal with |- exists s2 b, Some ?s1 = _ /\ _ =>
    destruct (process_returns_selection s1 buffer) as [[s2 buffer'] Hrun]
  end.
  - simpl. apply Forall_forall. intros st Hin Hon l Hl.
    destruct (Hbuf st l Hin Hon Hl) as (samples & Hs & Hn).
    exists (Z.to_nat (channelCount st)), (length samples).
    split.
    { unfold bankSizes. rewrite lookup_fmap, rebuilt_lookup by done.
      simpl. by rewrite length_replicate. }
    unfold masksInRange in Hmask. rewrite Forall_forall in Hmask.
    specialize (Hmask st Hin). rewrite Forall_forall in Hmask.
    specialize (Hmask l Hl).
    split; [lia|]. split; [|done].
    unfold bufferShape. by rewrite at_index_fmap, Hs.
  - by exists s2, buffer'.
Qed.

Lemma process_channel_empty_block id l bank buffer bank' buffer' :
  process_channel id 0 l (bank, buffer) = Some (bank', buffer') ->
  buffer' = buffer.
Proof.
  intros (f & samples & _ & Hs & _ & _ & ->)%process_channel_Some.
  apply list_insert_id. unfold at_index in Hs.
  destruct (getGlobalChannelIndex id l <? 0); [done|]. rewrite Hs. f_equal.
  rewrite take_0, drop_0. unfold processFilter.
  pose proof (lib_process_in_place (f_params f) (f_state f) []) as Hout.
  destruct (lib_process _ _ _) as [st out]; simpl in *.
  by destruct out.
Qed.

Lemma process_channels_empty_block id (chs : list Z) :
  forall bank buffer bank' buffer',
    for_each chs (process_channel id 0) (bank, buffer) = Some (bank', buffer') ->
    buffer' = buffer.
Proof.
  induction chs as [|l rest IH]; intros bank buffer bank' buffer';
    cbn [for_each].
  - by intros [= <- <-].
  - destruct (process_channel id 0 l (bank, buffer))
      as [[bank1 buffer1]|] eqn:Hstep; [|done].
    intros Hrun. rewrite (IH _ _ _ _ Hrun).
    by eapply process_channel_empty_block.
Qed.

Lemma process_streams_empty_block (streams : list DataStream) :
  forall banks buffer banks' buffer',
    (forall st, st ∈ streams -> getNumSamplesInBlock (streamId st) = 0%nat) ->
    for_each streams process_stream (banks, buffer) = Some (banks', buffer') ->
    buffer' = buffer.
Proof.
  induction streams as [|st rest IH]; intros banks buffer banks' buffer' Hn;
    cbn [for_each].
  - by intros [= <- <-].
  - destruct (process_stream st (banks, buffer))
      as [[banks1 buffer1]|] eqn:Hstep; [|done].
    intros Hrun.
    rewrite (IH _ _ _ _ (fun st' H => Hn st' (list_elem_of_further _ _ _ H)) Hrun).
    unfold process_stream in Hstep.
    destruct (enable_stream st); [|by injection Hstep as <- <-].
    destruct (banks !! streamId st) as [bank|].
    + rewrite (Hn st) in Hstep by (by left).
      destruct (for_each _ _ _) as [[bank' buffer2]|] eqn:Hloop; [|done].
      injection Hstep as <- <-. by eapply process_channels_empty_block.
    + destruct (Channels st); [by injection Hstep as <- <-|done].
Qed.

(** X20. A block without samples leaves the buffer as it is, whatever the
    streams and their masks. *)
Theorem process_empty_block
    (s s' : BandstopFilter) (buffer buffer' : AudioBuffer) :
  (forall st, st ∈ dataStreams s ->
     getNumSamplesInBlock (streamId st) = 0%nat) ->
  process s buffer = Some (s', buffer') ->
  buffer' = buffer.
Proof.
  intros Hn. unfold process.
  destruct (for_each _ _ _) as [[banks buffer1]|] eqn:Hloop; [|done].
  intros [= <- <-]. by eapply process_streams_empty_block.
Qed.

End InPlace.

End Plugin.

(** ** A small installation to run the definitions on

    A stand-in for the DSP library (the state counts the samples seen, the
    output is the input halved) and a host with two streams: stream 10 has
    four channels, the buffer channels 0 to 3, and stream 20 has two, the
    buffer channels 4 and 5; a block has two samples. *)

#[global] Instance demoDesign : FilterDesign := {|
  FilterState := nat;
  initialParams := mkParams 0 0 0 0;
  initialState := 0%nat;
  lib_setParams := fun _ _ st => st;
  lib_process := fun _ st samples =>
    ((st + length samples)%nat, (fun x => x * 0.5)%float <$> samples)
|}.

#[global] Instance demoHost : Host := {|
  getGlobalChannelIndex := fun id l => if (id =? 10)%N then l else 4 + l;
  getNumSamplesInBlock := fun _ => 2%nat;
  defaultSettings := mkSettings 0 []
|}.

Definition demoParameter (v previous : float) : FloatParameter :=
  mkFloatParameter v previous.

(** Stream 10: enabled, channels 0 and 2 selected. *)
Definition demoStream10 (low high : FloatParameter) : DataStream :=
  mkDataStream 10 4 30000 low high true [0; 2].

(** Stream 20: disabled, both channels selected. *)
Definition demoStream20 : DataStream :=
  mkDataStream 20 2 30000 (demoParameter 59 59) (demoParameter 61 61)
    false [0; 1].

Definition demoBank (lowCut highCut : float) (n : nat) : BandstopFilterSettings :=
  mkSettings 30000
    (replicate n (mkFilter (mkParams 30000 4 ((highCut + lowCut) / 2)
                              (highCut - lowCut)) 0%nat)).

Definition demoProcessor (low high : FloatParameter) : BandstopFilter :=
  mkBandstopFilter
    [demoStream10 low high; demoStream20]
    (<[10%N := demoBank 59 61 4]> (<[20%N := demoBank 59 61 2]> ∅))
    [CreateFilters 10 4 30000 59 61; CreateFilters 20 2 30000 59 61].

Definition demoBuffer : AudioBuffer :=
  [[1; 2]; [3; 4]; [5; 6]; [7; 8]; [9; 10]; [11; 12]]%float.

(** Scenario 1 of the specification, by running the code. *)
Example createFilters_scenario :
  createFilters 4 30000 59 61 (mkSettings 0 [])
  = Some (mkSettings 30000
            (replicate 4 (mkFilter (mkParams 30000 4 60 2) 0%nat))).
Proof. reflexivity. Qed.

(** A block: channels 0 and 2 of stream 10 are filtered, nothing else. *)
Example process_scenario :
  snd <$> process (demoProcessor (demoParameter 59 59) (demoParameter 61 61))
            demoBuffer
  = Some [[0.5; 1]; [3; 4]; [2.5; 3]; [7; 8]; [9; 10]; [11; 12]]%float.
Proof. reflexivity. Qed.

(** The block of the installation can be processed. *)
Example process_returns_scenario :
  let s := demoProcessor (demoParameter 59 59) (demoParameter 61 61) in
  exists s' buffer',
    process s demoBuffer = Some (s', buffer')
    /\ dataStreams s' = dataStreams s
    /\ bankSizes (settings s') = bankSizes (settings s)
    /\ bufferShape buffer' = bufferShape demoBuffer.
Proof.
  intros s. apply process_returns.
  - intros p st samples. simpl. apply length_fmap.
  - repeat apply Forall_cons_2; [| |apply Forall_nil_2].
    + intros _. exists 4%nat. split; [reflexivity|].
      intros l Hl. simpl in Hl.
      apply elem_of_cons in Hl as [->|Hl];
        [|apply elem_of_cons in Hl as [->|Hl]; [|by apply elem_of_nil in Hl]].
      * split; [lia|]. exists 2%nat. split; [reflexivity|simpl; lia].
      * split; [lia|]. exists 2%nat. split; [reflexivity|simpl; lia].
    + intros Hon. discriminate Hon.
Qed.

(** ** The theorems at the installation *)

Lemma createFilters_configures_witness :
  0 < 4
  /\ exists b',
       createFilters 4 30000 59 61 (demoBank 1 2 7) = Some b'
       /\ Z.of_nat (length (filters b')) = 4
       /\ sampleRate b' = 30000%float
       /\ Forall (fun f => f_params f =
                    mkParams 30000 4 ((59 + 61) / 2) (61 - 59))
                 (filters b').
Proof.
  split; [lia|].
  apply (createFilters_configures 4 30000 59 61 (demoBank 1 2 7)). lia.
Defined.

(** The preconditions the specification puts on [createFilters]; the
    cutoff range is the one the constructor declares for ["low_cut"] and
    ["high_cut"], 0.1 (the binary64 value next to it) to 15000. *)
Definition inCutoffRange (x : float) : bool :=
  (PrimFloat.leb 0x1.999999999999ap-4 x && PrimFloat.leb x 15000)%float.

Definition createFilters_precondition
    (numChannels : Z) (sampleRate_ lowCut highCut : float) : bool :=
  (0 <? numChannels)
  && PrimFloat.ltb 0 sampleRate_
  && PrimFloat.ltb lowCut highCut
  && inCutoffRange lowCut && inCutoffRange highCut
  && PrimFloat.ltb highCut (sampleRate_ / 2).

(** C4 fails on the code: with a channel count of 0 (and of -3) the
    precondition is violated, and [createFilters] returns an empty bank, no
    failure. *)
Lemma createFilters_surfaces_nothing :
  createFilters_precondition 0 30000 59 61 = false
  /\ createFilters 0 30000 59 61 (demoBank 59 61 4)
     = Some (mkSettings 30000 [])
  /\ createFilters_precondition (-3) 30000 59 61 = false
  /\ createFilters (-3) 30000 59 61 (demoBank 59 61 4)
     = Some (mkSettings 30000 []).
Proof. repeat split; reflexivity. Qed.

(** Scenario 3 of the specification: a low cutoff of 70, which was 59,
    against a high cutoff of 61. *)
Lemma rejected_edit_restores_witness :
  let s := demoProcessor (demoParameter 70 59) (demoParameter 61 61) in
  let param := mkParam "low_cut" 10 in
  let st := demoStream10 (demoParameter 70 59) (demoParameter 61 61) in
  editedField param = Some LowCut
  /\ getDataStream s (paramStreamId param) = Some st
  /\ violatesOrdering LowCut st = true
  /\ exists s',
       parameterValueChanged s param = Some s'
       /\ settings s' = settings s
       /\ bankCalls s' = bankCalls s
       /\ getDataStream s' (paramStreamId param) = Some (restoreField LowCut st)
       /\ (forall id, id <> paramStreamId param ->
             getDataStream s' id = getDataStream s id)
       /\ exists st',
            getDataStream s' (paramStreamId param) = Some st'
            /\ currentValue (low_cut st') = 59%float
            /\ high_cut st' = demoParameter 61 61
            /\ streamTopology st' = streamTopology st.
Proof.
  intros s param st.
  split; [reflexivity|]. split; [reflexivity|]. split; [reflexivity|].
  apply (rejected_edit_restores s param LowCut st); reflexivity.
Defined.

Lemma handled_edit_keeps_order_witness :
  let s := demoProcessor (demoParameter 58 59) (demoParameter 61 61) in
  let param := mkParam "Low_Cut" 10 in
  let st := demoStream10 (demoParameter 58 59) (demoParameter 61 61) in
  let s' := mkBandstopFilter (dataStreams s)
              (<[10%N := demoBank 58 61 4]> (settings s))
              (bankCalls s ++ [UpdateFilters 10 58 61]) in
  parameterValueChanged s param = Some s'
  /\ forall id, bankOrdered id (bankCalls s) -> bankOrdered id (bankCalls s').
Proof.
  intros s param st s'.
  assert (Hrun : parameterValueChanged s param = Some s') by reflexivity.
  split; [exact Hrun|].
  refine (proj1 (handled_edit_keeps_order s s' param LowCut st _ _ _ _ Hrun));
    reflexivity.
Defined.

Lemma edit_leaves_other_banks_witness :
  let s := demoProcessor (demoParameter 58 59) (demoParameter 61 61) in
  let param := mkParam "low_cut" 10 in
  let s' := mkBandstopFilter (dataStreams s)
              (<[10%N := demoBank 58 61 4]> (settings s))
              (bankCalls s ++ [UpdateFilters 10 58 61]) in
  parameterValueChanged s param = Some s'
  /\ settings s' !! 20%N = settings s !! 20%N.
Proof.
  intros s param s'.
  assert (Hrun : parameterValueChanged s param = Some s') by reflexivity.
  split; [exact Hrun|].
  apply (edit_leaves_other_banks s s' param 20 Hrun). discriminate.
Defined.

(** Scenario 4 of the specification: stream 10 has six channels now. *)
Lemma updateSettings_rebuilds_every_stream_witness :
  let stream10 :=
    mkDataStream 10 6 30000 (demoParameter 59 59) (demoParameter 61 61)
      true [0; 2] in
  let s := mkBandstopFilter [stream10; demoStream20]
             (<[10%N := demoBank 59 61 4]> ∅) [] in
  NoDup (streamId <$> dataStreams s)
  /\ exists s',
       updateSettings s = Some s'
       /\ dataStreams s' = dataStreams s
       /\ bankCalls s' = bankCalls s ++ (rebuildCall <$> dataStreams s)
       /\ forall st, st ∈ dataStreams s ->
            settings s' !! streamId st =
              createFilters (channelCount st) (streamSampleRate st)
                (currentValue (low_cut st)) (currentValue (high_cut st))
                (default defaultSettings (settings s !! streamId st)).
Proof.
  intros stream10 s.
  assert (Hnd : NoDup (streamId <$> dataStreams s)).
  { apply (bool_decide_unpack _). vm_compute. exact I. }
  split; [exact Hnd|].
  apply (updateSettings_rebuilds_every_stream s Hnd).
Defined.

Lemma demo_layout low high :
  channelsDisjoint (dataStreams (demoProcessor low high))
  /\ masksInRange (dataStreams (demoProcessor low high)).
Proof.
  split.
  - unfold channelsDisjoint. apply (bool_decide_unpack _). vm_compute. exact I.
  - unfold masksInRange. simpl. repeat constructor; simpl; lia.
Defined.

Definition demoProcessed : BandstopFilter * AudioBuffer :=
  (mkBandstopFilter
     (dataStreams (demoProcessor (demoParameter 59 59) (demoParameter 61 61)))
     (<[10%N := mkSettings 30000
                  [mkFilter (mkParams 30000 4 60 2) 2%nat;
                   mkFilter (mkParams 30000 4 60 2) 0%nat;
                   mkFilter (mkParams 30000 4 60 2) 2%nat;
                   mkFilter (mkParams 30000 4 60 2) 0%nat]]>
        (<[20%N := demoBank 59 61 2]> ∅))
     (bankCalls (demoProcessor (demoParameter 59 59) (demoParameter 61 61))),
   [[0.5; 1]; [3; 4]; [2.5; 3]; [7; 8]; [9; 10]; [11; 12]]%float).

(** Scenario 2 of the specification: the disabled stream 20. *)
Lemma disabled_stream_untouched_witness :
  let s := demoProcessor (demoParameter 59 59) (demoParameter 61 61) in
  process s demoBuffer = Some demoProcessed
  /\ enable_stream demoStream20 = false
  /\ (5 ∈ streamChannels demoStream20)
  /\ at_index (snd demoProcessed) 5 = at_index demoBuffer 5.
Proof.
  intros s.
  assert (Hrun : process s demoBuffer = Some demoProcessed) by reflexivity.
  assert (Hg : 5 ∈ streamChannels demoStream20).
  { apply (list_elem_of_lookup_2 _ 1%nat). reflexivity. }
  split; [exact Hrun|]. split; [reflexivity|]. split; [exact Hg|].
  apply (disabled_stream_untouched s (fst demoProcessed) demoBuffer
           (snd demoProcessed) demoStream20 5
           (proj1 (demo_layout _ _)) (proj2 (demo_layout _ _))).
  - apply (list_elem_of_lookup_2 _ 1%nat). reflexivity.
  - reflexivity.
  - exact Hg.
  - exact Hrun.
Defined.

Lemma unselected_channel_untouched_witness :
  let s := demoProcessor (demoParameter 59 59) (demoParameter 61 61) in
  let A := demoStream10 (demoParameter 59 59) (demoParameter 61 61) in
  process s demoBuffer = Some demoProcessed
  /\ enable_stream A = true
  /\ (3 ∉ Channels A)
  /\ at_index (snd demoProcessed) (getGlobalChannelIndex (streamId A) 3)
     = at_index demoBuffer (getGlobalChannelIndex (streamId A) 3).
Proof.
  intros s A.
  assert (Hrun : process s demoBuffer = Some demoProcessed) by reflexivity.
  assert (Hout : 3 ∉ Channels A).
  { apply (bool_decide_unpack _). vm_compute. exact I. }
  split; [exact Hrun|]. split; [reflexivity|]. split; [exact Hout|].
  apply (unselected_channel_untouched s (fst demoProcessed) demoBuffer
           (snd demoProcessed) A 3
           (proj1 (demo_layout _ _)) (proj2 (demo_layout _ _))).
  - apply (list_elem_of_lookup_2 _ 0%nat). reflexivity.
  - reflexivity.
  - subst A; simpl; lia.
  - exact Hout.
  - exact Hrun.
Defined.

(** ** The further properties at the installation *)

Lemma demo_ids low high :
  NoDup (streamId <$> dataStreams (demoProcessor low high)).
Proof. apply (bool_decide_unpack _). vm_compute. exact I. Defined.

Lemma demo_in_place :
  forall p st samples,
    length (snd (lib_process p st samples)) = length samples.
Proof. intros p st samples. simpl. apply length_fmap. Defined.

Lemma demo_process_run :
  process (demoProcessor (demoParameter 59 59) (demoParameter 61 61)) demoBuffer
  = Some demoProcessed.
Proof. reflexivity. Defined.

Lemma setFilterParameters_one_witness :
  exists b',
    setFilterParameters 50 70 2 (demoBank 59 61 4) = Some b'
    /\ bankShape b' = bankShape (demoBank 59 61 4)
    /\ f_params <$> at_index (filters b') 2
       = Some (mkParams 30000 4 ((50 + 70) / 2) (70 - 50))
    /\ forall other, other <> 2 ->
         at_index (filters b') other
         = at_index (filters (demoBank 59 61 4)) other.
Proof.
  apply (setFilterParameters_one 50 70 2 (demoBank 59 61 4)). simpl. lia.
Defined.

Lemma parameterValueChanged_keeps_topology_witness :
  let s := demoProcessor (demoParameter 58 59) (demoParameter 61 61) in
  let s' := mkBandstopFilter (dataStreams s)
              (<[10%N := demoBank 58 61 4]> (settings s))
              (bankCalls s ++ [UpdateFilters 10 58 61]) in
  streamTopology <$> dataStreams s' = streamTopology <$> dataStreams s
  /\ forall id, bankShape <$> settings s' !! id
               = bankShape <$> settings s !! id.
Proof.
  intros s s'.
  apply (parameterValueChanged_keeps_topology s s' (mkParam "low_cut" 10)).
  reflexivity.
Defined.

Lemma equal_cutoffs_rejected_witness :
  let s := demoProcessor (demoParameter 61 59) (demoParameter 61 61) in
  let st := demoStream10 (demoParameter 61 59) (demoParameter 61 61) in
  exists s',
    parameterValueChanged s (mkParam "low_cut" 10) = Some s'
    /\ settings s' = settings s
    /\ bankCalls s' = bankCalls s
    /\ getDataStream s' 10 = Some (restoreField LowCut st).
Proof.
  intros s st.
  apply (equal_cutoffs_rejected s (mkParam "low_cut" 10) LowCut st);
    reflexivity.
Defined.

(** No stream 30: the handler dereferences a null pointer. *)
Lemma parameterValueChanged_fails_witness :
  parameterValueChanged
    (demoProcessor (demoParameter 59 59) (demoParameter 61 61))
    (mkParam "high_cut" 30)
  = None.
Proof.
  apply (proj2 (parameterValueChanged_fails
                  (demoProcessor (demoParameter 59 59) (demoParameter 61 61))
                  (mkParam "high_cut" 30) HighCut eq_refl)).
  left. reflexivity.
Defined.

Lemma accepted_edit_configures_witness :
  let s := demoProcessor (demoParameter 59 59) (demoParameter 65 61) in
  exists s' b',
    parameterValueChanged s (mkParam "high_cut" 10) = Some s'
    /\ dataStreams s' = dataStreams s
    /\ settings s' !! 10%N = Some b'
    /\ bankShape b' = bankShape (demoBank 59 61 4)
    /\ Forall (fun f => f_params f = mkParams 30000 4 ((59 + 65) / 2) (65 - 59))
              (filters b').
Proof.
  intros s.
  apply (accepted_edit_configures s (mkParam "high_cut" 10) HighCut
           (demoStream10 (demoParameter 59 59) (demoParameter 65 61))
           (demoBank 59 61 4));
    reflexivity.
Defined.

Lemma updateSettings_from_streams_witness :
  let s1 := demoProcessor (demoParameter 59 59) (demoParameter 61 61) in
  let s2 := mkBandstopFilter (dataStreams s1) ∅ [] in
  exists r1 r2,
    updateSettings s1 = Some r1
    /\ updateSettings s2 = Some r2
    /\ forall st, st ∈ dataStreams s1 ->
         settings r1 !! streamId st = settings r2 !! streamId st.
Proof.
  intros s1 s2. apply (updateSettings_from_streams s1 s2). reflexivity.
Defined.

Lemma updateSettings_banks_fit_witness :
  let s := demoProcessor (demoParameter 59 59) (demoParameter 61 61) in
  exists s',
    updateSettings s = Some s'
    /\ forall st, st ∈ dataStreams s ->
         exists bank,
           settings s' !! streamId st = Some bank
           /\ sampleRate bank = streamSampleRate st
           /\ Z.of_nat (length (filters bank)) = Z.max (channelCount st) 0
           /\ Forall (fun f => f_params f =
                        mkParams (streamSampleRate st) 4
                          ((currentValue (low_cut st)
                            + currentValue (high_cut st)) / 2)
                          (currentValue (high_cut st)
                           - currentValue (low_cut st)))
                     (filters bank).
Proof.
  intros s. apply (updateSettings_banks_fit s). apply demo_ids.
Defined.

Lemma updateSettings_configures_with_stream_cutoffs_witness :
  let s := demoProcessor (demoParameter 50 59) (demoParameter 70 61) in
  exists s',
    updateSettings s = Some s'
    /\ forall st, st ∈ dataStreams s ->
         lastConfigured (streamId st) (bankCalls s') = Some (cutoffs st).
Proof.
  intros s. apply (updateSettings_configures_with_stream_cutoffs s).
  apply demo_ids.
Defined.

Lemma process_keeps_configuration_witness :
  let s := demoProcessor (demoParameter 59 59) (demoParameter 61 61) in
  dataStreams (fst demoProcessed) = dataStreams s
  /\ length (snd demoProcessed) = length demoBuffer
  /\ forall id, bankConfiguration <$> settings (fst demoProcessed) !! id
               = bankConfiguration <$> settings s !! id.
Proof.
  intros s.
  apply (process_keeps_configuration s (fst demoProcessed) demoBuffer
           (snd demoProcessed)).
  exact demo_process_run.
Defined.

Lemma process_leaves_other_instances_witness :
  let s := demoProcessor (demoParameter 59 59) (demoParameter 61 61) in
  instanceAt (settings (fst demoProcessed)) (streamId demoStream20) 1
  = instanceAt (settings s) (streamId demoStream20) 1.
Proof.
  intros s.
  apply (process_leaves_other_instances s (fst demoProcessed) demoBuffer
           (snd demoProcessed) demoStream20 1).
  - apply demo_ids.
  - apply (list_elem_of_lookup_2 _ 1%nat). reflexivity.
  - left. reflexivity.
  - exact demo_process_run.
Defined.

Lemma process_selected_channel_witness :
  let s := demoProcessor (demoParameter 59 59) (demoParameter 61 61) in
  let A := demoStream10 (demoParameter 59 59) (demoParameter 61 61) in
  let f := mkFilter (mkParams 30000 4 60 2) 0%nat in
  at_index (snd demoProcessed) (getGlobalChannelIndex (streamId A) 2)
    = Some ((processFilter f (take (getNumSamplesInBlock (streamId A))
                                [5; 6]%float)).2
              ++ drop (getNumSamplesInBlock (streamId A)) [5; 6]%float)
  /\ instanceAt (settings (fst demoProcessed)) (streamId A) 2
     = Some (processFilter f (take (getNumSamplesInBlock (streamId A))
                                [5; 6]%float)).1.
Proof.
  intros s A f.
  apply (process_selected_channel s (fst demoProcessed) demoBuffer
           (snd demoProcessed) A 2 f [5; 6]%float).
  - apply demo_ids.
  - apply (proj1 (demo_layout _ _)).
  - apply (proj2 (demo_layout _ _)).
  - apply (list_elem_of_lookup_2 _ 0%nat). reflexivity.
  - reflexivity.
  - apply (bool_decide_unpack _). vm_compute. exact I.
  - apply (list_elem_of_lookup_2 _ 1%nat). reflexivity.
  - reflexivity.
  - reflexivity.
  - exact demo_process_run.
Defined.

Lemma process_defined_iff_witness :
  let s := demoProcessor (demoParameter 59 59) (demoParameter 61 61) in
  is_Some (process s demoBuffer)
  <-> Forall (selectionReady (bankSizes (settings s)) (bufferShape demoBuffer))
             (dataStreams s).
Proof.
  intros s. apply (process_defined_iff demo_in_place s demoBuffer).
Defined.

Lemma process_keeps_shape_witness :
  let s := demoProcessor (demoParameter 59 59) (demoParameter 61 61) in
  bufferShape (snd demoProcessed) = bufferShape demoBuffer
  /\ bankSizes (settings (fst demoProcessed)) = bankSizes (settings s).
Proof.
  intros s.
  apply (process_keeps_shape demo_in_place s (fst demoProcessed) demoBuffer
           (snd demoProcessed)).
  exact demo_process_run.
Defined.

Lemma updateSettings_then_process_witness :
  let s := demoProcessor (demoParameter 59 59) (demoParameter 61 61) in
  exists s1 s2 buffer',
    updateSettings s = Some s1
    /\ process s1 demoBuffer = Some (s2, buffer').
Proof.
  intros s.
  apply (updateSettings_then_process demo_in_place s demoBuffer).
  - apply demo_ids.
  - apply (proj2 (demo_layout _ _)).
  - intros st l Hst Hon Hl. subst s. simpl in Hst.
    apply elem_of_cons in Hst as [->|Hst].
    + simpl in Hl.
      apply elem_of_cons in Hl as [->|Hl];
        [|apply elem_of_cons in Hl as [->|Hl]; [|by apply elem_of_nil in Hl]].
      * eexists. split; [reflexivity|]. simpl. lia.
      * eexists. split; [reflexivity|]. simpl. lia.
    + apply elem_of_cons in Hst as [->|Hst]; [|by apply elem_of_nil in Hst].
      discriminate Hon.
Defined.

(** A host whose blocks are empty. *)
Definition emptyBlockHost : Host := {|
  getGlobalChannelIndex := fun id l => if (id =? 10)%N then l else 4 + l;
  getNumSamplesInBlock := fun _ => 0%nat;
  defaultSettings := mkSettings 0 []
|}.

Lemma process_empty_block_witness :
  let s := demoProcessor (demoParameter 59 59) (demoParameter 61 61) in
  exists s', @process demoDesign emptyBlockHost s demoBuffer
             = Some (s', demoBuffer).
Proof.
  intros s.
  destruct (@process demoDesign emptyBlockHost s demoBuffer)
    as [[s' buffer']|] eqn:Hrun; [|discriminate Hrun].
  exists s'. f_equal. f_equal.
  apply (@process_empty_block demoDesign emptyBlockHost demo_in_place
           s s' demoBuffer buffer'); [reflexivity|exact Hrun].
Defined.
